(** * todosbackend: the two Express handlers and their three source variants

    The repository holds three variants of one Express server:
    [src/server.js], [src/unnamed/part_000] and [src/unnamed/part_001].
    Each registers a middleware that resolves a caller id and two POST
    handlers, [/summarize-single-todo] and [/send-single-todo-to-slack].

    The development embeds the handlers as functions from a request and a
    description of the outside world (the providers' answers, the process
    environment) to the list of effects the handler performs (outbound
    calls and HTTP responses, in order) and its completion (it returned, or
    an exception left the handler).  The handlers' model starts where the
    handlers start: after [cors] and [bodyParser.json()] have let the
    request through.  What comes before is modelled on its own: the origin
    check that part_000 hands to [cors] ([Ingress]), and the top level of
    each file, which initialises the Firebase Admin SDK and then listens or
    exits ([Startup]).

    Layout.  Definitions: JavaScript values and the coercions the handlers
    use ([JS]); the effect monad, axios, fetch and the Express response
    ([Express]); one module per source file ([ServerJs], [Part000],
    [Part001]); what a run shows ([Observe]); the statements examined and
    the inputs used against them ([Claims]); properties of whole runs
    ([Behaviour]); start-up ([Startup]) and the origin check ([Ingress]).
    Proofs: facts about values ([ValueFacts]), about runs ([RunFacts]),
    about the request body ([BodyFacts]), about each handler
    ([SummarizeFacts], [SlackFacts], [CaseFacts]), the claims C1 to C10,
    and further properties of the handlers, the origin check and
    start-up. *)

From Stdlib Require Import ZArith String Ascii List Bool Lia DecimalString.
From stdpp Require Import base option strings gmap.

Set Warnings "-register-all".

Local Open Scope Z_scope.

(** ** JavaScript values *)

Module JS.

(** The values [JSON.parse] produces, plus [undefined] (the value of a
    missing property and of an unset variable).  Numbers are the integers
    (a number with a fraction or an exponent is outside the model); the
    handlers never compute with a number, they test it for truthiness,
    compare a [length] with [0] and print it.  [JObj] lists the own
    properties of an object in order, each key once. *)
Inductive jsval : Type :=
| JUndefined
| JNull
| JBool (b : bool)
| JNum (n : Z)
| JStr (s : string)
| JArr (elems : list jsval)
| JObj (props : list (string * jsval)).

(** What a handler can throw or catch: an [Error] with its [message], and
    for an axios error the [response] it carries ([status] and [data]). *)
Record js_error : Type := JsError {
  message : string;
  response : option (Z * jsval)
}.

Inductive completion (A : Type) : Type :=
| Normal (a : A)
| Throw (e : js_error).
Arguments Normal {A} a.
Arguments Throw {A} e.

#[global] Instance completion_ret : MRet completion := fun A a => Normal a.
#[global] Instance completion_bind : MBind completion :=
  fun A B f m => match m with Normal a => f a | Throw e => Throw e end.

(** The TypeError the engine throws, with its message. *)
Definition TypeError (msg : string) : js_error :=
  {| message := msg; response := None |}.

(** [new Error(msg)] *)
Definition new_Error (msg : string) : js_error :=
  {| message := msg; response := None |}.

(** The double quote and the line feed, which string literals here do not
    spell out. *)
Definition dq : string := String (ascii_of_nat 34) EmptyString.
Definition nl : string := String (ascii_of_nat 10) EmptyString.

(** [if (v)], [!v], [v || w], [v && w]: ToBoolean. *)
Definition truthy (v : jsval) : bool :=
  match v with
  | JUndefined | JNull => false
  | JBool b => b
  | JNum n => negb (Z.eqb n 0)
  | JStr s => negb (String.eqb s EmptyString)
  | JArr _ | JObj _ => true
  end.

(** [v || w] *)
Definition js_or (v w : jsval) : jsval := if truthy v then v else w.

Definition nullish (v : jsval) : bool :=
  match v with JUndefined | JNull => true | _ => false end.

(** Own property lookup. *)
Fixpoint own (k : string) (props : list (string * jsval)) : option jsval :=
  match props with
  | [] => None
  | (k', v) :: rest => if String.eqb k k' then Some v else own k rest
  end.

Definition has_own (k : string) (props : list (string * jsval)) : bool :=
  match own k props with Some _ => true | None => false end.

(** An integer in decimal, as JavaScript prints one (below 10^21). *)
Definition show_Z (n : Z) : string := NilZero.string_of_int (Z.to_int n).

Definition cannot_convert : js_error :=
  TypeError "Cannot convert object to primitive value".

(** [Array.prototype.join] on the printed elements: the texts separated
    by commas; the first element that fails to print decides. *)
Fixpoint join_comma (parts : list (completion string)) : completion string :=
  match parts with
  | [] => Normal EmptyString
  | p :: rest =>
      match rest with
      | [] => p
      | _ :: _ => sx ← p; sr ← join_comma rest; Normal (sx +:+ "," +:+ sr)
      end
  end.

(** [`${v}`]: ToString.  An array prints its elements joined by commas,
    [null] and [undefined] elements as nothing.  An object prints through
    its [toString] method: a parsed object inherits the one that answers
    [[object Object]], unless it has an own property named [toString]; that
    property is data, not a function, [valueOf] yields no primitive either,
    and the conversion throws a TypeError. *)
Fixpoint to_string (v : jsval) : completion string :=
  match v with
  | JUndefined => Normal "undefined"
  | JNull => Normal "null"
  | JBool true => Normal "true"
  | JBool false => Normal "false"
  | JNum n => Normal (show_Z n)
  | JStr s => Normal s
  | JArr elems =>
      join_comma
        (map (fun x => if nullish x then Normal EmptyString else to_string x)
             elems)
  | JObj props =>
      if has_own "toString" props then Throw cannot_convert
      else Normal "[object Object]"
  end.

Definition cannot_read (v : jsval) (k : string) : js_error :=
  TypeError ("Cannot read properties of "
             +:+ (match v with JNull => "null" | _ => "undefined" end)
             +:+ " (reading '" +:+ k +:+ "')").

(** [v.k] for the property names the handlers read ([text], [candidates],
    [length], ...; none of them is an array index or an inherited
    method).  Reading a property of [null] or [undefined] throws. *)
Definition get (v : jsval) (k : string) : completion jsval :=
  match v with
  | JUndefined | JNull => Throw (cannot_read v k)
  | JObj props => Normal (default JUndefined (own k props))
  | JArr elems =>
      Normal (if String.eqb k "length" then JNum (Z.of_nat (length elems))
              else JUndefined)
  | JStr s =>
      Normal (if String.eqb k "length" then JNum (Z.of_nat (String.length s))
              else JUndefined)
  | JBool _ | JNum _ => Normal JUndefined
  end.

(** [v?.k]: [undefined] where [v.k] would throw. *)
Definition opt_get (v : jsval) (k : string) : jsval :=
  match get v k with Normal x => x | Throw _ => JUndefined end.

(** [v[0]] *)
Definition get0 (v : jsval) : completion jsval :=
  match v with
  | JUndefined | JNull => Throw (cannot_read v "0")
  | JArr elems => Normal (match elems with [] => JUndefined | x :: _ => x end)
  | JStr s =>
      Normal (match s with
              | EmptyString => JUndefined
              | String c _ => JStr (String c EmptyString)
              end)
  | JObj props => Normal (default JUndefined (own "0" props))
  | JBool _ | JNum _ => Normal JUndefined
  end.

(** [v > 0].  A string is read as a number first; how the host reads it
    ([StringToNumber], with its floating-point rounding) is left to
    [positive_numeral], which says whether the string reads as a number
    above zero.  An array is printed and the text read the same way; an
    object prints as [[object Object]], which is no number. *)
Definition gt_zero (positive_numeral : string -> bool) (v : jsval)
  : completion bool :=
  match v with
  | JUndefined | JNull => Normal false
  | JBool b => Normal b
  | JNum n => Normal (Z.ltb 0 n)
  | JStr s => Normal (positive_numeral s)
  | JArr _ => s ← to_string v; Normal (positive_numeral s)
  | JObj _ => _ ← to_string v; Normal false
  end.

(** [v === s] for a string literal [s]. *)
Definition strict_eq_str (v : jsval) (s : string) : bool :=
  match v with JStr t => String.eqb t s | _ => false end.

(** No object inside [v] has an own property named [toString]: every
    part of [v] prints. *)
Fixpoint plain (v : jsval) : bool :=
  match v with
  | JArr elems => forallb plain elems
  | JObj props =>
      negb (has_own "toString" props)
      && forallb (fun kv => plain (snd kv)) props
  | _ => true
  end.

(** [JSON.stringify] on an object literal: a property whose value is
    [undefined] is left out. *)
Definition stringify_props (props : list (string * jsval))
  : list (string * jsval) :=
  List.filter
    (fun kv => match snd kv with JUndefined => false | _ => true end)
    props.

(** Induction on values that reaches inside arrays and objects. *)
Section jsval_induction.
Variable P : jsval -> Prop.
Hypothesis P_undefined : P JUndefined.
Hypothesis P_null : P JNull.
Hypothesis P_bool : forall b, P (JBool b).
Hypothesis P_num : forall n, P (JNum n).
Hypothesis P_str : forall s, P (JStr s).
Hypothesis P_arr : forall elems, Forall P elems -> P (JArr elems).
Hypothesis P_obj :
  forall props, Forall (fun kv => P (snd kv)) props -> P (JObj props).

Fixpoint jsval_nested_ind (v : jsval) : P v :=
  match v with
  | JUndefined => P_undefined
  | JNull => P_null
  | JBool b => P_bool b
  | JNum n => P_num n
  | JStr s => P_str s
  | JArr elems =>
      P_arr elems
        ((fix all (l : list jsval) : Forall P l :=
            match l with
            | [] => @List.Forall_nil _ P
            | x :: rest =>
                @List.Forall_cons _ P x rest (jsval_nested_ind x) (all rest)
            end) elems)
  | JObj props =>
      P_obj props
        ((fix all (l : list (string * jsval))
            : Forall (fun kv => P (snd kv)) l :=
            match l with
            | [] => @List.Forall_nil _ _
            | kv :: rest =>
                @List.Forall_cons _ (fun kv => P (snd kv)) kv rest
                  (jsval_nested_ind (snd kv)) (all rest)
            end) props)
  end.
End jsval_induction.

(** A computation whose exceptions are all TypeErrors: errors without a
    [response]. *)
Definition throws_bare {A : Type} (c : completion A) : Prop :=
  forall e, c = Throw e -> response e = None.

End JS.

(** ** Effects: outbound calls, responses, exceptions *)

Module Express.
Import JS.

(** What a handler does that the outside can see.  [LlmCall] is a
    request to the generative endpoint (the axios payload, or the prompt
    handed to the SDK; the endpoint's URL and key are constants and left
    out); [WebhookPost] is a POST to the chat webhook; [Respond] is
    [res.status(status).json(body)], with the body as it is serialised.
    Console output is not part of the trace. *)
Inductive event : Type :=
| LlmCall (request : jsval)
| WebhookPost (url : jsval) (payload : jsval)
| Respond (status : Z) (body : jsval).

(** A computation: the effects performed so far, in order, and how it
    completed. *)
Record M (A : Type) : Type := Run {
  trace : list event;
  result : completion A
}.
Arguments Run {A} trace result.
Arguments trace {A} m.
Arguments result {A} m.

#[global] Instance M_ret : MRet M := fun A a => Run [] (Normal a).
#[global] Instance M_bind : MBind M := fun A B f m =>
  match result m with
  | Normal a => Run (trace m ++ trace (f a)) (result (f a))
  | Throw e => Run (trace m) (Throw e)
  end.

Definition emit (e : event) : M unit := Run [e] (Normal tt).
Definition throw {A : Type} (e : js_error) : M A := Run [] (Throw e).
Definition lift {A : Type} (c : completion A) : M A := Run [] c.

(** [try { m } catch (e) { h e }] *)
Definition try_catch {A : Type} (m : M A) (h : js_error -> M A) : M A :=
  match result m with
  | Normal a => m
  | Throw e => Run (trace m ++ trace (h e)) (result (h e))
  end.

(** [res.status(status).json({ ...props })] *)
Definition res_json (status : Z) (props : list (string * jsval)) : M unit :=
  emit (Respond status (JObj (stringify_props props))).

(** The answer of a provider to one request: an HTTP response (status and
    body) or no response at all (a network failure, with the client's
    message).  A response is delivered whole, with a status an HTTP client
    hands over. *)
Inductive http_outcome (B : Type) : Type :=
| Answered (status : Z) (body : B)
| Failed (msg : string).
Arguments Answered {B} status body.
Arguments Failed {B} msg.

(** The answer of the generative-AI SDK to [generateContent(prompt)]
    followed by [response.text()]: the text, or the error either throws. *)
Inductive sdk_outcome : Type :=
| Generated (text : string)
| Refused (e : js_error).

(** Everything the source does not define.  [env] is [process.env];
    the four functions are the providers' answers to a request, as axios
    hands them over (body parsed), as node-fetch does (body as text) and as
    the SDK does; [positive_numeral] is the host's reading of a string as a
    number above zero. *)
Record world : Type := {
  env : gmap string string;
  gemini_http : jsval -> http_outcome jsval;
  gemini_sdk : string -> sdk_outcome;
  slack_http : jsval -> jsval -> http_outcome jsval;
  slack_fetch : jsval -> jsval -> http_outcome string;
  positive_numeral : string -> bool
}.

(** [process.env.NAME] *)
Definition process_env (w : world) (name : string) : jsval :=
  match env w !! name with Some s => JStr s | None => JUndefined end.

Definition is_2xx (status : Z) : bool := Z.leb 200 status && Z.ltb status 300.

(** [await axios.post(...)] with axios's default [validateStatus]: a 2xx
    response resolves to its status and parsed data; any other response
    rejects with an error that carries the response; a network failure
    rejects with an error that carries none. *)
Definition axios_post (call : event) (answer : http_outcome jsval)
  : M (Z * jsval) :=
  emit call;;
  match answer with
  | Answered status data =>
      if is_2xx status then mret (status, data)
      else throw {| message := "Request failed with status code " +:+ show_Z status;
                    response := Some (status, data) |}
  | Failed msg => throw {| message := msg; response := None |}
  end.

(** [await fetch(url, { method: 'POST', ... })]: resolves for every
    response, whatever its status; rejects on a network failure. *)
Definition fetch_post (call : event) (answer : http_outcome string)
  : M (Z * string) :=
  emit call;;
  match answer with
  | Answered status text => mret (status, text)
  | Failed msg => throw {| message := msg; response := None |}
  end.

(** An inbound request after [bodyParser.json()]: Node's header object
    (lower-case names), the parsed body, and the [userId] property the
    middleware adds to the request object. *)
Record request : Type := {
  headers : gmap string string;
  body : jsval;
  userId : jsval
}.

(** [req.headers[name]] *)
Definition header (req : request) (name : string) : jsval :=
  match headers req !! name with Some s => JStr s | None => JUndefined end.

Inductive route : Type :=
| summarize_single_todo_route
| send_single_todo_to_slack_route.

(** [err.response?.status], [err.response?.data] *)
Definition response_status (e : js_error) : jsval :=
  match response e with Some (st, _) => JNum st | None => JUndefined end.
Definition response_data (e : js_error) : jsval :=
  match response e with Some (_, d) => d | None => JUndefined end.

(** The guard both axios variants put on the generative endpoint's answer:
    [r.candidates && r.candidates.length > 0 && r.candidates[0].content &&
     r.candidates[0].content.parts && r.candidates[0].content.parts.length > 0],
    evaluated left to right, stopping at the first falsy operand. *)
Definition has_candidate_parts (w : world) (llmResult : jsval)
  : completion bool :=
  candidates ← get llmResult "candidates";
  if negb (truthy candidates) then Normal false else
  n ← get candidates "length";
  pos ← gt_zero (positive_numeral w) n;
  if negb pos then Normal false else
  first ← get0 candidates;
  content ← get first "content";
  if negb (truthy content) then Normal false else
  parts ← get content "parts";
  if negb (truthy parts) then Normal false else
  m ← get parts "length";
  gt_zero (positive_numeral w) m.

(** [llmResult.candidates[0].content.parts[0].text] *)
Definition first_candidate_text (llmResult : jsval) : completion jsval :=
  candidates ← get llmResult "candidates";
  first ← get0 candidates;
  content ← get first "content";
  parts ← get content "parts";
  part ← get0 parts;
  get part "text".

(** [req.userId = v] *)
Definition with_userId (v : jsval) (req : request) : request :=
  {| headers := headers req; body := body req; userId := v |}.

(** The middleware all three files register before the routes:
    [req.userId = req.headers['x-user-id'] || 'anonymous'; next()]. *)
Definition userId_middleware (req : request) : request :=
  with_userId (js_or (header req "x-user-id") (JStr "anonymous")) req.

End Express.

(** ** src/server.js *)

Module ServerJs.
Import JS Express.

(** The webhook URL committed in the file (line 51); the secret path of
    the literal is elided here.  It is neither empty nor the placeholder. *)
Definition SLACK_WEBHOOK_URL : jsval :=
  JStr "https://hooks.slack.com/services/...".

(** Lines 64-74 of the summarize handler: the request body is
    destructured and the prompt built, before the [try]. *)
Definition summarize_prompt (reqBody : jsval) : completion string :=
  text ← get reqBody "text";
  dueDate ← get reqBody "dueDate";
  dueTime ← get reqBody "dueTime";
  _ ← get reqBody "userId";
  t ← to_string text;
  let prompt := "Summarize the following todo item: " +:+ dq +:+ t +:+ dq in
  prompt ← (if truthy dueDate
            then d ← to_string dueDate; Normal (prompt +:+ " due on " +:+ d)
            else Normal prompt);
  prompt ← (if truthy dueTime
            then d ← to_string dueTime; Normal (prompt +:+ " at " +:+ d)
            else Normal prompt);
  Normal (prompt +:+ ". Provide a concise summary of approximately 4 to 5 lines, between 100 and 299 words, and ensure it is action-oriented.").

(** [{ contents: [{ role: "user", parts: [{ text: prompt }] }] }] *)
Definition llm_payload (prompt : string) : jsval :=
  JObj [("contents",
         JArr [JObj [("role", JStr "user");
                     ("parts", JArr [JObj [("text", JStr prompt)]])]])].

(** The [try] block, lines 78-96. *)
Definition summarize_try (w : world) (prompt : string) : M unit :=
  let payload := llm_payload prompt in
  llmResponse ← axios_post (LlmCall payload) (gemini_http w payload);
  let llmResult := llmResponse.2 in
  present ← lift (has_candidate_parts w llmResult);
  summary ← (if (present : bool) then lift (first_candidate_text llmResult)
             else mret (JStr "Could not generate a meaningful summary for this todo."));
  res_json 200 [("message", JStr "Single todo summary generated successfully.");
                ("summary", summary)].

(** [llmError.response?.data?.error?.message || llmError.message] *)
Definition llm_error_detail (llmError : js_error) : jsval :=
  js_or (opt_get (opt_get (response_data llmError) "error") "message")
        (JStr (message llmError)).

(** The [catch] block, lines 98-101. *)
Definition summarize_catch (llmError : js_error) : M unit :=
  detail ← lift (to_string (llm_error_detail llmError));
  res_json 500 [("error", JStr ("Error generating summary for single todo: " +:+ detail))].

(** [app.post('/summarize-single-todo', ...)], lines 63-102. *)
Definition summarize_single_todo (w : world) (req : request) : M unit :=
  prompt ← lift (summarize_prompt (body req));
  try_catch (summarize_try w prompt) summarize_catch.

(** Lines 106-119 of the Slack handler: the body is destructured and the
    message text built, before the [try]. *)
Definition slack_text (reqBody : jsval) : completion string :=
  text ← get reqBody "text";
  dueDate ← get reqBody "dueDate";
  dueTime ← get reqBody "dueTime";
  summary ← get reqBody "summary";
  userId ← get reqBody "userId";
  u ← to_string userId;
  let slackMessage := "*New Todo Alert for User " +:+ u +:+ "*:" +:+ nl in
  t ← to_string text;
  let slackMessage := slackMessage +:+ "*Task*: " +:+ t +:+ nl in
  slackMessage ← (if truthy dueDate
                  then d ← to_string dueDate;
                       Normal (slackMessage +:+ "*Due Date*: " +:+ d +:+ nl)
                  else Normal slackMessage);
  slackMessage ← (if truthy dueTime
                  then d ← to_string dueTime;
                       Normal (slackMessage +:+ "*Due Time*: " +:+ d +:+ nl)
                  else Normal slackMessage);
  if truthy summary
  then s ← to_string summary;
       Normal (slackMessage +:+ "*Summary*: " +:+ s +:+ nl)
  else Normal (slackMessage +:+ "_No summary provided._" +:+ nl).

(** The [try] block, lines 121-136. *)
Definition slack_try (SLACK_WEBHOOK_URL : jsval) (w : world)
    (slackMessage : string) : M unit :=
  _ ← (if negb (truthy SLACK_WEBHOOK_URL)
          || strict_eq_str SLACK_WEBHOOK_URL "YOUR_SLACK_WEBHOOK_URL_HERE"
       then throw (new_Error "Slack Webhook URL is not configured in the backend.")
       else mret tt);
  let payload := JObj [("text", JStr slackMessage)] in
  slackResponse ← axios_post (WebhookPost SLACK_WEBHOOK_URL payload)
                             (slack_http w SLACK_WEBHOOK_URL payload);
  if Z.leb 200 slackResponse.1 && Z.ltb slackResponse.1 300
  then res_json 200 [("message", JStr "Todo sent to Slack successfully!")]
  else
    d ← lift (to_string (js_or slackResponse.2 (JStr "Unknown error")));
    res_json slackResponse.1
             [("error", JStr ("Failed to send todo to Slack: " +:+ d))].

(** [slackError.response?.status || 500], as the number handed to
    [res.status]. *)
Definition slack_error_status (slackError : js_error) : Z :=
  match js_or (response_status slackError) (JNum 500) with
  | JNum st => st
  | _ => 500
  end.

(** [slackError.response?.data?.error || slackError.message] *)
Definition slack_error_detail (slackError : js_error) : jsval :=
  js_or (opt_get (response_data slackError) "error")
        (JStr (message slackError)).

(** The [catch] block, lines 137-140. *)
Definition slack_catch (slackError : js_error) : M unit :=
  detail ← lift (to_string (slack_error_detail slackError));
  res_json (slack_error_status slackError)
           [("error", JStr ("Internal server error: " +:+ detail))].

(** [app.post('/send-single-todo-to-slack', ...)], lines 105-141, with
    the module constant [SLACK_WEBHOOK_URL] as an argument. *)
Definition send_single_todo_to_slack (SLACK_WEBHOOK_URL : jsval)
    (w : world) (req : request) : M unit :=
  slackMessage ← lift (slack_text (body req));
  try_catch (slack_try SLACK_WEBHOOK_URL w slackMessage) slack_catch.

(** The application: the middleware, then the route's handler. *)
Definition app (w : world) (r : route) (req : request) : M unit :=
  let req := userId_middleware req in
  match r with
  | summarize_single_todo_route => summarize_single_todo w req
  | send_single_todo_to_slack_route =>
      send_single_todo_to_slack SLACK_WEBHOOK_URL w req
  end.

End ServerJs.

(** ** src/unnamed/part_000 *)

Module Part000.
Import JS Express.

(** [const SLACK_WEBHOOK_URL = process.env.SLACK_WEBHOOK_URL], line 59. *)
Definition SLACK_WEBHOOK_URL (w : world) : jsval :=
  process_env w "SLACK_WEBHOOK_URL".

(** Lines 76-86 of the summarize handler, before the [try]. *)
Definition summarize_prompt (reqBody : jsval) : completion string :=
  text ← get reqBody "text";
  dueDate ← get reqBody "dueDate";
  dueTime ← get reqBody "dueTime";
  _ ← get reqBody "userId";
  t ← to_string text;
  let prompt := "Description Answer and Summarize the following todo item: "
                +:+ dq +:+ t +:+ dq in
  prompt ← (if truthy dueDate
            then d ← to_string dueDate; Normal (prompt +:+ " due on " +:+ d)
            else Normal prompt);
  prompt ← (if truthy dueTime
            then d ← to_string dueTime; Normal (prompt +:+ " at " +:+ d)
            else Normal prompt);
  Normal (prompt +:+ ". Provide a concise answer and summary of approximately 2 to 3 lines, between 100 and 299 words. Format the summary as a bulleted list, ensuring each point is action-oriented.").

(** [(await model.generateContent(prompt)).response.text()] *)
Definition generateContent (w : world) (prompt : string) : M string :=
  emit (LlmCall (JStr prompt));;
  match gemini_sdk w prompt with
  | Generated s => mret s
  | Refused e => throw e
  end.

(** The [try] block, lines 90-96. *)
Definition summarize_try (w : world) (prompt : string) : M unit :=
  summary ← generateContent w prompt;
  res_json 200 [("message", JStr "Single todo summary generated successfully.");
                ("summary", JStr summary)].

(** [llmError.response?.data?.error?.message || llmError.message] *)
Definition llm_error_detail (llmError : js_error) : jsval :=
  js_or (opt_get (opt_get (response_data llmError) "error") "message")
        (JStr (message llmError)).

(** The [catch] block, lines 98-103. *)
Definition summarize_catch (llmError : js_error) : M unit :=
  errorMessage ← lift (to_string (llm_error_detail llmError));
  res_json 500 [("error", JStr ("Error generating summary for single todo: " +:+ errorMessage))].

(** [app.post('/summarize-single-todo', ...)], lines 75-104. *)
Definition summarize_single_todo (w : world) (req : request) : M unit :=
  prompt ← lift (summarize_prompt (body req));
  try_catch (summarize_try w prompt) summarize_catch.

(** The prompt of lines 121-124, a template that spans four source lines. *)
Definition slack_prompt (text dueDate dueTime : jsval) : completion string :=
  t ← to_string text;
  dd ← to_string (js_or dueDate (JStr "Not specified"));
  dt ← to_string (js_or dueTime (JStr "Not specified"));
  Normal ("Summarize the following single to-do item for a Slack message. Keep it concise and action-oriented. Include the due date/time if provided."
          +:+ nl +:+ "      To-do: " +:+ dq +:+ t +:+ dq
          +:+ nl +:+ "      Due Date: " +:+ dd
          +:+ nl +:+ "      Due Time: " +:+ dt).

(** [`Could not generate summary for: "${text}".`], line 133. *)
Definition fallback_summary (text : jsval) : completion jsval :=
  t ← to_string text;
  Normal (JStr ("Could not generate summary for: " +:+ dq +:+ t +:+ dq +:+ ".")).

(** Lines 116-135: the summary the caller sent, or one generated now, or
    the fallback when generating fails. *)
Definition final_summary (w : world) (text dueDate dueTime summary : jsval)
  : M jsval :=
  if negb (truthy summary)
  then
    try_catch
      (prompt ← lift (slack_prompt text dueDate dueTime);
       s ← generateContent w prompt;
       mret (JStr s))
      (fun llmError => lift (fallback_summary text))
  else mret summary.

(** The message object of lines 138-171. *)
Definition build_slackMessage
    (userId userAgent text dueDate dueTime finalSummary : jsval)
  : completion jsval :=
  u ← to_string userId;
  a ← to_string userAgent;
  f ← to_string finalSummary;
  t ← to_string text;
  dd ← to_string (js_or dueDate (JStr "N/A"));
  dt ← to_string (js_or dueTime (JStr "N/A"));
  Normal
    (JObj
       [("text", JStr ("*New Todo Update from " +:+ u +:+ " (" +:+ a +:+ "):*" +:+ nl +:+ f));
        ("blocks",
         JArr
           [JObj [("type", JStr "section");
                  ("text", JObj [("type", JStr "mrkdwn");
                                 ("text", JStr ("*New Todo Update from `" +:+ u +:+ "`*:"))])];
            JObj [("type", JStr "section");
                  ("fields",
                   JArr [JObj [("type", JStr "mrkdwn");
                               ("text", JStr ("*Todo:*" +:+ nl +:+ t))];
                         JObj [("type", JStr "mrkdwn");
                               ("text", JStr ("*Summary:*" +:+ nl +:+ f))]])];
            JObj [("type", JStr "context");
                  ("elements",
                   JArr [JObj [("type", JStr "mrkdwn");
                               ("text", JStr ("*Due:* " +:+ dd +:+ " " +:+ dt
                                              +:+ " | *Sent by:* " +:+ a))]])]])]).

(** The [try] block, lines 173-194. *)
Definition slack_try (SLACK_WEBHOOK_URL : jsval) (w : world)
    (slackMessage : jsval) : M unit :=
  _ ← (if negb (truthy SLACK_WEBHOOK_URL)
          || strict_eq_str SLACK_WEBHOOK_URL "YOUR_SLACK_WEBHOOK_URL_HERE"
       then throw (new_Error "Slack Webhook URL is not configured in the backend environment variables.")
       else mret tt);
  slackResponse ← fetch_post (WebhookPost SLACK_WEBHOOK_URL slackMessage)
                             (slack_fetch w SLACK_WEBHOOK_URL slackMessage);
  if is_2xx slackResponse.1
  then res_json 200 [("message", JStr "Todo summary sent to Slack successfully!")]
  else
    let errorData := slackResponse.2 in
    res_json slackResponse.1
             [("error", JStr ("Failed to send message to Slack: " +:+ errorData))].

(** The [catch] block, lines 195-198. *)
Definition slack_catch (error : js_error) : M unit :=
  res_json 500 [("error", JStr "Internal server error: Could not send message to Slack.")].

(** [app.post('/send-single-todo-to-slack', ...)], lines 108-199, with
    the module constant [SLACK_WEBHOOK_URL] as an argument. *)
Definition send_single_todo_to_slack (SLACK_WEBHOOK_URL : jsval)
    (w : world) (req : request) : M unit :=
  text ← lift (get (body req) "text");
  dueDate ← lift (get (body req) "dueDate");
  dueTime ← lift (get (body req) "dueTime");
  summary ← lift (get (body req) "summary");
  userId ← lift (get (body req) "userId");
  let userAgent := js_or (header req "user-agent") (JStr "Unknown User-Agent") in
  if negb (truthy text)
  then res_json 400 [("error", JStr "Todo text is required.")]
  else
    finalSummary ← final_summary w text dueDate dueTime summary;
    slackMessage ← lift (build_slackMessage userId userAgent text dueDate dueTime finalSummary);
    try_catch (slack_try SLACK_WEBHOOK_URL w slackMessage) slack_catch.

Definition app (w : world) (r : route) (req : request) : M unit :=
  let req := userId_middleware req in
  match r with
  | summarize_single_todo_route => summarize_single_todo w req
  | send_single_todo_to_slack_route =>
      send_single_todo_to_slack (SLACK_WEBHOOK_URL w) w req
  end.

End Part000.

(** ** src/unnamed/part_001 *)

Module Part001.
Import JS Express.

(** [process.env.SLACK_WEBHOOK_URL || '<committed URL>'], line 41; the
    secret path of the literal is elided here. *)
Definition SLACK_WEBHOOK_URL (w : world) : jsval :=
  js_or (process_env w "SLACK_WEBHOOK_URL")
        (JStr "https://hooks.slack.com/services/...").

(** Lines 53-63 of the summarize handler, before the [try]. *)
Definition summarize_prompt (reqBody : jsval) : completion string :=
  text ← get reqBody "text";
  dueDate ← get reqBody "dueDate";
  dueTime ← get reqBody "dueTime";
  _ ← get reqBody "userId";
  t ← to_string text;
  let prompt := "Description Answer and Summarize  the following todo item: "
                +:+ dq +:+ t +:+ dq in
  prompt ← (if truthy dueDate
            then d ← to_string dueDate; Normal (prompt +:+ " due on " +:+ d)
            else Normal prompt);
  prompt ← (if truthy dueTime
            then d ← to_string dueTime; Normal (prompt +:+ " at " +:+ d)
            else Normal prompt);
  Normal (prompt +:+ ". Provide a concise answer and summary of approximately 2 to 3 line answer and summary 4 to 5 lines, between 100 and 299 words. Format the summary as a bulleted list, ensuring each point is action-oriented.").

(** The [try] block, lines 67-85.  The [else] branch of the guard only
    logs, so [summary] keeps the empty string it was initialised with. *)
Definition summarize_try (w : world) (prompt : string) : M unit :=
  let payload := ServerJs.llm_payload prompt in
  llmResponse ← axios_post (LlmCall payload) (gemini_http w payload);
  let llmResult := llmResponse.2 in
  present ← lift (has_candidate_parts w llmResult);
  summary ← (if (present : bool) then lift (first_candidate_text llmResult)
             else mret (JStr EmptyString));
  res_json 200 [("message", JStr "Single todo summary generated successfully.");
                ("summary", summary)].

(** The [catch] block, lines 87-89: it logs and sends nothing. *)
Definition summarize_catch (llmError : js_error) : M unit := mret tt.

(** [app.post('/summarize-single-todo', ...)], lines 52-90. *)
Definition summarize_single_todo (w : world) (req : request) : M unit :=
  prompt ← lift (summarize_prompt (body req));
  try_catch (summarize_try w prompt) summarize_catch.

(** [app.post('/send-single-todo-to-slack', ...)], lines 94-130: the same
    text as lines 105-141 of src/server.js. *)
Definition send_single_todo_to_slack (SLACK_WEBHOOK_URL : jsval)
    (w : world) (req : request) : M unit :=
  ServerJs.send_single_todo_to_slack SLACK_WEBHOOK_URL w req.

Definition app (w : world) (r : route) (req : request) : M unit :=
  let req := userId_middleware req in
  match r with
  | summarize_single_todo_route => summarize_single_todo w req
  | send_single_todo_to_slack_route =>
      send_single_todo_to_slack (SLACK_WEBHOOK_URL w) w req
  end.

End Part001.

(** ** What a run shows *)

Module Observe.
Import JS Express.

(** The HTTP responses of a trace, in order. *)
Fixpoint responses (t : list event) : list (Z * jsval) :=
  match t with
  | [] => []
  | Respond status body :: rest => (status, body) :: responses rest
  | _ :: rest => responses rest
  end.

(** The requests sent to the generative endpoint. *)
Fixpoint llm_calls (t : list event) : list jsval :=
  match t with
  | [] => []
  | LlmCall request :: rest => request :: llm_calls rest
  | _ :: rest => llm_calls rest
  end.

(** The POSTs sent to the webhook: URL and payload. *)
Fixpoint webhook_posts (t : list event) : list (jsval * jsval) :=
  match t with
  | [] => []
  | WebhookPost url payload :: rest => (url, payload) :: webhook_posts rest
  | _ :: rest => webhook_posts rest
  end.

(** Every outbound network call, of either kind. *)
Definition outbound_calls (t : list event) : list event :=
  List.filter (fun e => match e with Respond _ _ => false | _ => true end) t.

(** A top-level key of a JSON body. *)
Definition field (k : string) (b : jsval) : option jsval :=
  match b with JObj props => own k props | _ => None end.

(** The test of both Slack handlers on the URL, negated:
    [!(!URL || URL === 'YOUR_SLACK_WEBHOOK_URL_HERE')]. *)
Definition webhook_configured (url : jsval) : bool :=
  truthy url && negb (strict_eq_str url "YOUR_SLACK_WEBHOOK_URL_HERE").

(** The properties the handlers read off the request body. *)
Definition fields_read : list string :=
  ["text"; "dueDate"; "dueTime"; "summary"; "userId"].

(** A request body the handlers can read and print: it is not [null] or
    [undefined], and none of the properties read holds an object with an
    own [toString].  A body whose properties are strings or missing is
    one. *)
Definition printable_body (b : jsval) : bool :=
  negb (nullish b) && forallb (fun k => plain (opt_get b k)) fields_read.


(** Every effect of the run satisfies [P]. *)
Definition always {A : Type} (P : event -> Prop) (m : M A) : Prop :=
  Forall P (trace m).



(** A webhook POST whose message text starts with [prefix], then the
    printed [userId] property of the body [b]. *)
Definition names_body_user (prefix : string) (b : jsval) (e : event) : Prop :=
  match e with
  | WebhookPost _ payload =>
      exists u rest,
        to_string (opt_get b "userId") = Normal u /\
        field "text" payload = Some (JStr (prefix +:+ u +:+ rest))
  | _ => True
  end.

End Observe.

(** ** The statements under scrutiny, and the inputs used against them *)

Module Claims.
Import JS Express Observe.

(** [s] occurs in [t]. *)
Definition occurs_in (s t : string) : Prop :=
  exists pre post, t = pre +:+ s +:+ post.





(** The rejection of a request without [text]: the one response, and not
    a single outbound call. *)
Definition rejects_missing_text (m : M unit) : Prop :=
  trace m = [Respond 400 (JObj [("error", JStr "Todo text is required.")])].

(** The webhook received a message whose [text] embeds the fallback
    summary built from [text]. *)
Definition posts_fallback_for (text : string) (m : M unit) : Prop :=
  exists url payload s,
    In (url, payload) (webhook_posts (trace m)) /\
    field "text" payload = Some (JStr s) /\
    occurs_in ("Could not generate summary for: " +:+ dq +:+ text +:+ dq +:+ ".") s.

(** An unconfigured webhook, as the specification words it: a 500 with an
    error envelope and no outbound call of any kind. *)
Definition unconfigured_as_specified (m : M unit) : Prop :=
  outbound_calls (trace m) = [] /\
  exists b v, responses (trace m) = [(500, b)] /\ field "error" b = Some v.

(** The caller id, as the specification words it: the header's value
    whenever the header is there. *)
Definition caller_id_as_specified (req : request) : Prop :=
  match headers req !! "x-user-id" with
  | Some v => userId (userId_middleware req) = JStr v
  | None => userId (userId_middleware req) = JStr "anonymous"
  end.

(** *** Worlds and requests *)

Definition candidates_with (part : jsval) : jsval :=
  JObj [("candidates",
         JArr [JObj [("content", JObj [("parts", JArr [part])])]])].

(** A world in which the generative endpoint answers every request with
    [llm], the SDK answers every prompt with [sdk], and the webhook answers
    every POST with [status] and the text [reply]. *)
Definition world_of (vars : gmap string string) (llm : http_outcome jsval)
    (sdk : sdk_outcome) (status : Z) (reply : string) : world :=
  {| env := vars;
     gemini_http := fun _ => llm;
     gemini_sdk := fun _ => sdk;
     slack_http := fun _ _ => Answered status (JStr reply);
     slack_fetch := fun _ _ => Answered status reply;
     positive_numeral := fun _ => false |}.

Definition network_down : js_error :=
  {| message := "connect ECONNREFUSED"; response := None |}.

(** Everything works: the endpoint returns the text of the specification's
    scenario, and the webhook accepts. *)
Definition all_well : world :=
  world_of {["SLACK_WEBHOOK_URL" := "https://hooks.example/T/B/X"]}
           (Answered 200 (candidates_with (JObj [("text", JStr "Buy milk by Jan 1.")])))
           (Generated "Buy milk by Jan 1.") 200 "ok".


(** The endpoint answers with a part that has no [text]. *)
Definition part_without_text : world :=
  world_of ∅ (Answered 200 (candidates_with (JObj []))) (Generated EmptyString) 200 "ok".

(** The endpoint answers 200 with an empty object. *)
Definition empty_answer : world :=
  world_of ∅ (Answered 200 (JObj [])) (Generated EmptyString) 200 "ok".

(** The endpoint cannot be reached. *)
Definition llm_down : world :=
  world_of ∅ (Failed "connect ECONNREFUSED") (Refused network_down) 200 "ok".

(** The same with a webhook URL in the environment. *)
Definition llm_down_webhook_set : world :=
  world_of {["SLACK_WEBHOOK_URL" := "https://hooks.example/T/B/X"]}
           (Failed "connect ECONNREFUSED") (Refused network_down) 200 "ok".

(** The webhook answers 404 with the text [no_service]. *)
Definition webhook_404 : world :=
  world_of {["SLACK_WEBHOOK_URL" := "https://hooks.example/T/B/X"]}
           (Answered 200 (JObj [])) (Generated "s") 404 "no_service".

Definition request_of (hs : gmap string string) (b : jsval) : request :=
  {| headers := hs; body := b; userId := JUndefined |}.

(** [{ "text": "Buy milk" }] *)
Definition buy_milk : request :=
  request_of ∅ (JObj [("text", JStr "Buy milk")]).

(** [{}] *)
Definition empty_body : request := request_of ∅ (JObj []).

(** [{ "text": "Buy milk", "dueDate": { "toString": 1 } }] *)
Definition unprintable_due_date : request :=
  request_of ∅ (JObj [("text", JStr "Buy milk");
                      ("dueDate", JObj [("toString", JNum 1)])]).

(** [{ "text": "Buy milk", "userId": "u1" }] sent with an [x-user-id]. *)
Definition buy_milk_as (caller : string) : request :=
  request_of {["x-user-id" := caller]}
             (JObj [("text", JStr "Buy milk"); ("userId", JStr "u1")]).

End Claims.

(** ** What every run has in common *)

Module Behaviour.
Import JS Express Observe.

(** Outbound calls in the order the handlers make them: the requests
    to the generative endpoint, then the POSTs to the webhook. *)
Definition calls_of (llm : list jsval) (posts : list (jsval * jsval))
  : list event :=
  map LlmCall llm ++ map (fun post => WebhookPost post.1 post.2) posts.

(** An orderly run: at most [l] requests to the generative endpoint,
    then at most [p] POSTs to the webhook, then the response, which is the
    last thing the handler does.  A handler that returns has sent exactly
    one response; a handler that throws has sent none. *)
Definition orderly (l p : nat) (m : M unit) : Prop :=
  exists (llm : list jsval) (posts : list (jsval * jsval)),
    Nat.le (length llm) l /\ Nat.le (length posts) p /\
    match result m with
    | Normal _ =>
        exists status b, trace m = calls_of llm posts ++ [Respond status b]
    | Throw _ => trace m = calls_of llm posts
    end.

(** [axios.post] resolves for this answer. *)
Definition resolves (answer : http_outcome jsval) : bool :=
  match answer with Answered st _ => is_2xx st | Failed _ => false end.

(** What [axios.post] rejects with, for an answer it does not resolve
    for (see [axios_post]). *)
Definition rejection (answer : http_outcome jsval) : js_error :=
  match answer with
  | Answered st d =>
      {| message := "Request failed with status code " +:+ show_Z st;
         response := Some (st, d) |}
  | Failed msg => {| message := msg; response := None |}
  end.

(** The run POSTs once, to [url]; or, for [None], not at all. *)
Definition posts_to (url : option jsval) (m : M unit) : Prop :=
  match url with
  | Some u => exists payload, webhook_posts (trace m) = [(u, payload)]
  | None => webhook_posts (trace m) = []
  end.

(** Some property that a handler prints does not print. *)
Definition unprintable (b : jsval) (fields : list string) : Prop :=
  exists k e, In k fields /\ to_string (opt_get b k) = Throw e.

(** The properties of the body that reach the generative endpoint. *)
Definition fields_prompted : list string :=
  ["text"; "dueDate"; "dueTime"; "summary"].

(** Two bodies that no prompt can tell apart. *)
Definition same_prompt_fields (b1 b2 : jsval) : Prop :=
  nullish b1 = nullish b2 /\
  forall k, In k fields_prompted -> opt_get b1 k = opt_get b2 k.

End Behaviour.

(** ** Start-up: credentials, port, listen

    The top level of each file: lines 7-41 and 144-147 of src/server.js,
    8-32 and 202-205 of part_000, 8-34 and 133-136 of part_001. *)

Module Startup.
Import JS.

Inductive stream : Type := Stdout | Stderr.

(** What start-up does that the operator can see: a console line
    ([console.log] writes to stdout, [console.error] and [console.warn] to
    stderr), [process.exit(code)], and [app.listen(port)]. *)
Inductive boot_event : Type :=
| Log (to : stream) (line : string)
| Exit (code : Z)
| Listen (port : jsval).












(** The exit codes and the ports listened on, in order. *)
Fixpoint exit_codes (t : list boot_event) : list Z :=
  match t with
  | [] => []
  | Exit code :: rest => code :: exit_codes rest
  | _ :: rest => exit_codes rest
  end.

Fixpoint listens (t : list boot_event) : list jsval :=
  match t with
  | [] => []
  | Listen port :: rest => port :: listens rest
  | _ :: rest => listens rest
  end.



End Startup.

(** ** The origin check of part_000, lines 36-52 *)

Module Ingress.
Import JS Express.

Definition allowedOrigins : list string :=
  ["http://localhost:3000";
   "https://frontefront-7m2yrofu6-lokeshas-projects.vercel.app"].

(** [list.indexOf(v)]: the index of the first element strictly equal to
    [v], or -1. *)
Fixpoint indexOf_from (i : Z) (l : list string) (v : jsval) : Z :=
  match l with
  | [] => -1
  | x :: rest => if strict_eq_str v x then i else indexOf_from (i + 1) rest v
  end.

Definition indexOf (l : list string) (v : jsval) : Z := indexOf_from 0 l v.

Definition cors_message : string :=
  "The CORS policy for this site does not allow access from the specified Origin.".

(** The [origin] function handed to [cors], as the pair it passes to its
    callback: the error, and whether the origin is allowed. *)
Definition origin (o : jsval) : option js_error * bool :=
  if negb (truthy o) then (None, true)
  else if Z.eqb (indexOf allowedOrigins o) (-1)
       then (Some (new_Error cors_message), false)
       else (None, true).

(** What becomes of a request: [cors] hands an error of the origin check
    to Express's error handling and the route is not entered; otherwise
    the request goes on to the middleware and its route. *)
Inductive served : Type :=
| Blocked (e : js_error)
| Handled (m : M unit).

Definition serve (w : world) (r : route) (req : request) : served :=
  match origin (header req "origin") with
  | (Some e, _) => Blocked e
  | (None, _) => Handled (Part000.app w r req)
  end.

(** The requests the origin check lets through, by their Origin
    header. *)
Definition admitted (req : request) : Prop :=
  match headers req !! "origin" with
  | None => True
  | Some o => o = EmptyString \/ In o allowedOrigins
  end.

End Ingress.

(** ** Facts about values *)

Module ValueFacts.
Import JS.

Lemma append_assoc (s t u : string) : (s +:+ t) +:+ u = s +:+ t +:+ u.
Proof.
  induction s as [ | c s IH ]; [ reflexivity | exact (f_equal (String c) IH) ].
Qed.

Lemma append_nil_r (s : string) : s +:+ EmptyString = s.
Proof.
  induction s as [ | c s IH ]; [ reflexivity | exact (f_equal (String c) IH) ].
Qed.

Lemma join_comma_cons (p q : completion string) (rest : list (completion string)) :
  join_comma (p :: q :: rest) =
  (sx ← p; sr ← join_comma (q :: rest); Normal (sx +:+ "," +:+ sr)).
Proof. reflexivity. Qed.

Lemma join_comma_normal (parts : list (completion string)) :
  Forall (fun p => exists s, p = Normal s) parts ->
  exists s, join_comma parts = Normal s.
Proof.
  induction 1 as [ | p rest [sp ->] Hrest [sr IH] ]; [ simpl; eauto | ].
  destruct rest as [ | q rest ]; [ simpl; eauto | ].
  rewrite join_comma_cons, IH. cbn. eauto.
Qed.

Lemma join_comma_throw (parts : list (completion string)) (e : js_error) :
  Forall (fun p => forall e', p = Throw e' -> e' = cannot_convert) parts ->
  join_comma parts = Throw e -> e = cannot_convert.
Proof.
  induction 1 as [ | p rest Hp Hrest IH ]; [ discriminate | ].
  destruct rest as [ | q rest ]; [ apply Hp | ].
  rewrite join_comma_cons.
  destruct p as [sp | ep]; cbn [mbind completion_bind].
  - destruct (join_comma (q :: rest)) as [sr | er]; [ discriminate | ].
    intros [= <-]. apply IH. reflexivity.
  - intros [= <-]. apply Hp. reflexivity.
Qed.

(** A value without own [toString] properties prints. *)
Lemma to_string_plain (v : jsval) :
  plain v = true -> exists s, to_string v = Normal s.
Proof.
  induction v as [ | | b | n | s | elems IH | props IH ] using jsval_nested_ind;
    intros Hp; simpl in *; eauto.
  - destruct b; eauto.
  - apply join_comma_normal.
    induction IH as [ | x rest Hx Hrest IHrest ]; simpl in *; constructor.
    + apply andb_true_iff in Hp as [Hpx _]. destruct (nullish x); eauto.
    + apply andb_true_iff in Hp as [_ Hprest]. eauto.
  - apply andb_true_iff in Hp as [Hno _].
    apply negb_true_iff in Hno. rewrite Hno. eauto.
Qed.

(** The only exception of a print is the TypeError of the conversion. *)
Lemma to_string_throw (v : jsval) (e : js_error) :
  to_string v = Throw e -> e = cannot_convert.
Proof.
  revert e.
  induction v as [ | | b | n | s | elems IH | props IH ] using jsval_nested_ind;
    intros e; simpl; try discriminate.
  - destruct b; discriminate.
  - apply join_comma_throw.
    induction IH as [ | x rest Hx Hrest IHrest ]; simpl; constructor; auto.
    destruct (nullish x); [ discriminate | exact Hx ].
  - destruct (has_own "toString" props); congruence.
Qed.

Lemma own_plain (k : string) (props : list (string * jsval)) (v : jsval) :
  forallb (fun kv => plain (snd kv)) props = true ->
  own k props = Some v -> plain v = true.
Proof.
  induction props as [ | [k' x] rest IH ]; simpl; intros Hp Ho; try discriminate.
  apply andb_true_iff in Hp as [Hx Hrest].
  destruct (String.eqb k k'); [ congruence | eauto ].
Qed.

Lemma opt_get_plain (v : jsval) (k : string) :
  plain v = true -> plain (opt_get v k) = true.
Proof.
  intros Hp. unfold opt_get, get.
  destruct v; simpl in *; try reflexivity.
  - destruct (String.eqb k "length"); reflexivity.
  - destruct (String.eqb k "length"); reflexivity.
  - apply andb_true_iff in Hp as [_ Hp].
    destruct (own k props) eqn:E; simpl; [ eapply own_plain; eauto | reflexivity ].
Qed.

Lemma js_or_plain (v u : jsval) :
  plain v = true -> plain u = true -> plain (js_or v u) = true.
Proof. unfold js_or. destruct (truthy v); auto. Qed.

(** Reading a property of anything but [null] and [undefined] succeeds. *)
Lemma get_defined (v : jsval) (k : string) :
  nullish v = false -> get v k = Normal (opt_get v k).
Proof. unfold opt_get. destruct v; simpl; intros; try discriminate; reflexivity. Qed.

Lemma get_normal (v x : jsval) (k : string) :
  get v k = Normal x -> x = opt_get v k.
Proof. unfold opt_get. intros ->. reflexivity. Qed.

Lemma bare_normal {A : Type} (a : A) : throws_bare (Normal a).
Proof. intros e. discriminate. Qed.

Lemma bare_bind {A B : Type} (c : completion A) (f : A -> completion B) :
  throws_bare c -> (forall a, throws_bare (f a)) -> throws_bare (c ≫= f).
Proof.
  intros Hc Hf e. destruct c as [a | e']; cbn.
  - apply Hf.
  - intros [= <-]. apply Hc. reflexivity.
Qed.

Lemma bare_if {A : Type} (b : bool) (c d : completion A) :
  throws_bare c -> throws_bare d -> throws_bare (if b then c else d).
Proof. destruct b; auto. Qed.

Lemma bare_to_string (v : jsval) : throws_bare (to_string v).
Proof. intros e He. rewrite (to_string_throw v e He). reflexivity. Qed.

Lemma bare_get (v : jsval) (k : string) : throws_bare (get v k).
Proof.
  intros e. destruct v; simpl; intros [= <-] || discriminate; reflexivity.
Qed.

Lemma bare_get0 (v : jsval) : throws_bare (get0 v).
Proof.
  intros e. destruct v; simpl; intros [= <-] || discriminate; reflexivity.
Qed.

Lemma bare_gt_zero (f : string -> bool) (v : jsval) : throws_bare (gt_zero f v).
Proof.
  destruct v; cbn [gt_zero]; try apply bare_normal;
    (apply bare_bind; [ apply bare_to_string | intros; apply bare_normal ]).
Qed.

End ValueFacts.

Create HintDb throws.
#[global] Hint Resolve ValueFacts.bare_normal ValueFacts.bare_bind
  ValueFacts.bare_if ValueFacts.bare_to_string ValueFacts.bare_get
  ValueFacts.bare_get0 ValueFacts.bare_gt_zero : throws.

(** ** Facts about runs *)

Module RunFacts.
Import JS Express Observe ValueFacts.

Lemma bare_has_candidate_parts (w : world) (d : jsval) :
  throws_bare (has_candidate_parts w d).
Proof. unfold has_candidate_parts. auto 20 with throws. Qed.

Lemma bare_first_candidate_text (d : jsval) :
  throws_bare (first_candidate_text d).
Proof. unfold first_candidate_text. auto 20 with throws. Qed.

Lemma bind_lift {A B : Type} (c : completion A) (f : A -> M B) :
  (lift c ≫= f) = match c with Normal a => f a | Throw e => throw e end.
Proof. destruct c as [a | e]; cbn; [ destruct (f a) | ]; reflexivity. Qed.

Lemma bind_normal {A B : Type} (m : M A) (f : A -> M B) (a : A) :
  result m = Normal a ->
  (m ≫= f) = Run (trace m ++ trace (f a)) (result (f a)).
Proof. intros H. unfold mbind, M_bind. rewrite H. reflexivity. Qed.

Lemma bind_throw {A B : Type} (m : M A) (f : A -> M B) (e : js_error) :
  result m = Throw e -> (m ≫= f) = Run (trace m) (Throw e).
Proof. intros H. unfold mbind, M_bind. rewrite H. reflexivity. Qed.

Lemma try_catch_normal {A : Type} (m : M A) (h : js_error -> M A) (a : A) :
  result m = Normal a -> try_catch m h = m.
Proof. unfold try_catch. intros ->. reflexivity. Qed.

Lemma try_catch_throw {A : Type} (m : M A) (h : js_error -> M A) (e : js_error) :
  result m = Throw e ->
  try_catch m h = Run (trace m ++ trace (h e)) (result (h e)).
Proof. unfold try_catch. intros ->. reflexivity. Qed.

Lemma responses_app (t u : list event) :
  responses (t ++ u) = responses t ++ responses u.
Proof.
  induction t as [ | [] t IH ]; simpl; rewrite ?IH; reflexivity.
Qed.

Lemma webhook_posts_app (t u : list event) :
  webhook_posts (t ++ u) = webhook_posts t ++ webhook_posts u.
Proof.
  induction t as [ | [] t IH ]; simpl; rewrite ?IH; reflexivity.
Qed.


Lemma in_webhook_posts (t : list event) (url payload : jsval) :
  In (url, payload) (webhook_posts t) <-> In (WebhookPost url payload) t.
Proof.
  induction t as [ | ev t IH ]; simpl; [ tauto | ].
  destruct ev; simpl; rewrite IH; intuition congruence.
Qed.

(** *** Properties of every effect, through the combinators *)

Section always.
Context (P : event -> Prop).

Lemma always_silent {A : Type} (m : M A) : trace m = [] -> always P m.
Proof. unfold always. intros ->. constructor. Qed.


Lemma always_try_catch {A : Type} (m : M A) (h : js_error -> M A) :
  always P m ->
  (forall e, result m = Throw e -> always P (h e)) ->
  always P (try_catch m h).
Proof.
  unfold always. intros Hm Hh. destruct (result m) as [a | e] eqn:Hres.
  - rewrite (try_catch_normal m h a Hres). exact Hm.
  - rewrite (try_catch_throw m h e Hres). cbn [trace].
    apply Forall_app. auto.
Qed.

Lemma always_bind {A B : Type} (m : M B) (f : B -> M A) :
  always P m ->
  (forall a, result m = Normal a -> always P (f a)) ->
  always P (m ≫= f).
Proof.
  unfold always. intros Hm Hf. destruct (result m) as [a | e] eqn:Hres.
  - rewrite (bind_normal m f a Hres). cbn [trace]. apply Forall_app. auto.
  - rewrite (bind_throw m f e Hres). exact Hm.
Qed.

Lemma always_lift_bind {A B : Type} (c : completion B) (f : B -> M A) :
  (forall a, c = Normal a -> always P (f a)) -> always P (lift c ≫= f).
Proof.
  intros Hf. apply always_bind; [ apply always_silent; reflexivity | exact Hf ].
Qed.

End always.

Lemma always_res_json (P : event -> Prop) (status : Z)
    (props : list (string * jsval)) :
  P (Respond status (JObj (stringify_props props))) ->
  always P (res_json status props).
Proof. intros H. repeat constructor. exact H. Qed.

Lemma always_axios_post (P : event -> Prop) (call : event)
    (answer : http_outcome jsval) :
  P call -> always P (axios_post call answer).
Proof.
  intros H. unfold always, axios_post.
  destruct answer as [st d | msg]; [ destruct (is_2xx st) | ]; cbn;
    repeat constructor; exact H.
Qed.

Lemma always_fetch_post (P : event -> Prop) (call : event)
    (answer : http_outcome string) :
  P call -> always P (fetch_post call answer).
Proof.
  intros H. unfold always, fetch_post.
  destruct answer as [st d | msg]; cbn; repeat constructor; exact H.
Qed.

Lemma always_generateContent (P : event -> Prop) (w : world) (p : string) :
  P (LlmCall (JStr p)) -> always P (Part000.generateContent w p).
Proof.
  intros H. unfold always, Part000.generateContent.
  destruct (gemini_sdk w p); cbn; repeat constructor; exact H.
Qed.

End RunFacts.

(** ** The request body, read and printed *)

Module BodyFacts.
Import JS Express Observe ValueFacts RunFacts.

Lemma printable_body_parts (b : jsval) :
  printable_body b = true ->
  nullish b = false /\
  forall k, In k fields_read -> plain (opt_get b k) = true.
Proof.
  unfold printable_body. intros [H1 H2]%andb_true_iff.
  split; [ apply negb_true_iff; exact H1 | ].
  rewrite forallb_forall in H2. exact H2.
Qed.

(** A body that is plain throughout is printable. *)
Lemma plain_body_printable (b : jsval) :
  nullish b = false -> plain b = true -> printable_body b = true.
Proof.
  intros Hn Hp. unfold printable_body. rewrite Hn. apply forallb_forall.
  intros k _. apply opt_get_plain, Hp.
Qed.

(** [k] is one of [fields_read]. *)
Ltac in_fields := solve [ repeat first [ left; reflexivity | right ] ].

(** [plain v] for a property of the body, a literal, or an [||] of them,
    under [Hp : forall k, In k fields_read -> plain (opt_get b k) = true]. *)
Ltac field_plain Hp :=
  repeat first [ apply js_or_plain | apply Hp; in_fields | reflexivity ].

(** Under [Hn : nullish b = false] and [Hp] as above, every property read
    of [b] and every print of a property in the goal succeeds. *)
Ltac reads_and_prints b Hn Hp :=
  rewrite ?(get_defined b _ Hn); cbn [mbind completion_bind];
  repeat match goal with
    | |- context [to_string ?v] =>
        let s := fresh "s" in
        let Hs := fresh "Hs" in
        assert (exists s, to_string v = Normal s) as [s Hs]
          by (apply to_string_plain; field_plain Hp);
        rewrite Hs; clear Hs; cbn [mbind completion_bind]
    | |- context [if truthy ?v then _ else _] => destruct (truthy v)
    end.

Lemma server_js_prompt_defined (b : jsval) :
  printable_body b = true -> exists p, ServerJs.summarize_prompt b = Normal p.
Proof.
  intros [Hn Hp]%printable_body_parts. unfold ServerJs.summarize_prompt.
  reads_and_prints b Hn Hp; eauto.
Qed.

Lemma part_000_prompt_defined (b : jsval) :
  printable_body b = true -> exists p, Part000.summarize_prompt b = Normal p.
Proof.
  intros [Hn Hp]%printable_body_parts. unfold Part000.summarize_prompt.
  reads_and_prints b Hn Hp; eauto.
Qed.

Lemma part_001_prompt_defined (b : jsval) :
  printable_body b = true -> exists p, Part001.summarize_prompt b = Normal p.
Proof.
  intros [Hn Hp]%printable_body_parts. unfold Part001.summarize_prompt.
  reads_and_prints b Hn Hp; eauto.
Qed.

Lemma server_js_slack_text_defined (b : jsval) :
  printable_body b = true -> exists t, ServerJs.slack_text b = Normal t.
Proof.
  intros [Hn Hp]%printable_body_parts. unfold ServerJs.slack_text.
  reads_and_prints b Hn Hp; eauto.
Qed.

(** The Slack text of src/server.js opens with the body's [userId]. *)
Lemma server_js_slack_text_user (b : jsval) (msg : string) :
  ServerJs.slack_text b = Normal msg ->
  exists u rest,
    to_string (opt_get b "userId") = Normal u /\
    msg = "*New Todo Alert for User " +:+ u +:+ rest.
Proof.
  unfold ServerJs.slack_text.
  destruct (nullish b) eqn:Hn; [ destruct b; discriminate | ].
  rewrite !(get_defined b _ Hn). cbn [mbind completion_bind].
  destruct (to_string (opt_get b "userId")) as [u | ]; [ | discriminate ].
  cbn [mbind completion_bind].
  destruct (to_string (opt_get b "text")) as [t | ]; [ | discriminate ].
  cbn [mbind completion_bind].
  intros H. exists u.
  repeat match type of H with
    | context [if truthy ?v then _ else _] => destruct (truthy v)
    | context [to_string ?v] => destruct (to_string v)
    | _ => progress cbn [mbind completion_bind] in H
    end;
    try discriminate; injection H as <-;
    rewrite !append_assoc; eexists; split; reflexivity.
Qed.

(** The message object of part_000 opens its text with the [userId]. *)
Lemma part_000_message_user (userId userAgent text dueDate dueTime summary msg : jsval) :
  Part000.build_slackMessage userId userAgent text dueDate dueTime summary = Normal msg ->
  exists u rest,
    to_string userId = Normal u /\
    field "text" msg = Some (JStr ("*New Todo Update from " +:+ u +:+ rest)).
Proof.
  unfold Part000.build_slackMessage. intros H.
  repeat match type of H with
    | context [to_string ?v] => destruct (to_string v)
    | _ => progress cbn [mbind completion_bind] in H
    end;
    try discriminate; injection H as <-.
  eexists _, _. split; reflexivity.
Qed.

End BodyFacts.

(** ** The summarize handlers *)

Module SummarizeFacts.
Import JS Express Observe Claims ValueFacts RunFacts BodyFacts.

Ltac run_cbn :=
  cbn [mbind M_bind mret M_ret lift emit throw try_catch res_json trace result
       fst snd app responses llm_calls webhook_posts length].










(** *** Every effect of a summarize run

    A property of the call, of the success response and of the error
    response is a property of every effect of the handler. *)

Section summarize_always.
Context (P : event -> Prop).
Hypothesis P_call : forall c, P (LlmCall c).
Hypothesis P_success :
  forall v,
    P (Respond 200
         (JObj (stringify_props
                  [("message", JStr "Single todo summary generated successfully.");
                   ("summary", v)]))).
Hypothesis P_failure :
  forall s,
    P (Respond 500
         (JObj [("error", JStr ("Error generating summary for single todo: " +:+ s))])).

Lemma server_js_summarize_always (w : world) (req : request) :
  always P (ServerJs.summarize_single_todo w req).
Proof.
  unfold ServerJs.summarize_single_todo.
  apply always_lift_bind; intros p _.
  apply always_try_catch.
  - unfold ServerJs.summarize_try.
    apply always_bind; [ apply always_axios_post, P_call | intros r _ ].
    apply always_lift_bind; intros [ | ] _.
    + apply always_lift_bind; intros v _. apply always_res_json, P_success.
    + apply always_bind; [ apply always_silent; reflexivity | intros v _ ].
      apply always_res_json, P_success.
  - intros e _. unfold ServerJs.summarize_catch.
    apply always_lift_bind; intros s _. apply always_res_json, P_failure.
Qed.

Lemma part_001_summarize_always (w : world) (req : request) :
  always P (Part001.summarize_single_todo w req).
Proof.
  unfold Part001.summarize_single_todo.
  apply always_lift_bind; intros p _.
  apply always_try_catch.
  - unfold Part001.summarize_try.
    apply always_bind; [ apply always_axios_post, P_call | intros r _ ].
    apply always_lift_bind; intros [ | ] _.
    + apply always_lift_bind; intros v _. apply always_res_json, P_success.
    + apply always_bind; [ apply always_silent; reflexivity | intros v _ ].
      apply always_res_json, P_success.
  - intros e _. apply always_silent. reflexivity.
Qed.

Lemma part_000_summarize_always (w : world) (req : request) :
  always P (Part000.summarize_single_todo w req).
Proof.
  unfold Part000.summarize_single_todo.
  apply always_lift_bind; intros p _.
  apply always_try_catch.
  - unfold Part000.summarize_try.
    apply always_bind; [ apply always_generateContent, P_call | intros s _ ].
    apply always_res_json, (P_success (JStr s)).
  - intros e _. unfold Part000.summarize_catch.
    apply always_lift_bind; intros s _. apply always_res_json, P_failure.
Qed.

End summarize_always.

(** The envelope, response by response. *)




End SummarizeFacts.

(** ** The Slack handlers *)

Module SlackFacts.
Import JS Express Observe Claims ValueFacts RunFacts BodyFacts SummarizeFacts.

Lemma occurs_in_self (s : string) : occurs_in s s.
Proof. exists EmptyString, EmptyString. rewrite append_nil_r. reflexivity. Qed.

Lemma occurs_in_app_l (s x t : string) : occurs_in s t -> occurs_in s (x +:+ t).
Proof.
  intros (pre & post & ->). exists (x +:+ pre), post.
  rewrite append_assoc. reflexivity.
Qed.

(** The guard of both [try] blocks, in terms of [webhook_configured]. *)
Lemma url_guard (url : jsval) :
  negb (truthy url) || strict_eq_str url "YOUR_SLACK_WEBHOOK_URL_HERE"
  = negb (webhook_configured url).
Proof.
  unfold webhook_configured.
  destruct (truthy url), (strict_eq_str url "YOUR_SLACK_WEBHOOK_URL_HERE"); reflexivity.
Qed.

(** *** src/server.js and part_001 *)


(** The [else] branch of lines 132-136 is never taken: axios resolves
    with a 2xx status only.  Whatever property holds of the POST and of
    the success response holds of the whole [try] block. *)
Lemma server_js_slack_try_always (P : event -> Prop) (url : jsval) (w : world)
    (msg : string) :
  P (WebhookPost url (JObj [("text", JStr msg)])) ->
  P (Respond 200 (JObj [("message", JStr "Todo sent to Slack successfully!")])) ->
  always P (ServerJs.slack_try url w msg).
Proof.
  intros Hpost Hok. unfold ServerJs.slack_try, always, axios_post, is_2xx.
  destruct (negb (truthy url) || strict_eq_str url "YOUR_SLACK_WEBHOOK_URL_HERE");
    run_cbn; [ constructor | ].
  destruct (slack_http w url (JObj [("text", JStr msg)])) as [st d | m]; run_cbn;
    [ | repeat constructor; exact Hpost ].
  destruct (Z.leb 200 st && Z.ltb st 300) eqn:Hst; run_cbn;
    [ rewrite Hst | ]; repeat constructor; assumption.
Qed.



Lemma server_js_slack_names_user (url : jsval) (w : world) (req : request) :
  always (names_body_user "*New Todo Alert for User " (body req))
         (ServerJs.send_single_todo_to_slack url w req).
Proof.
  unfold ServerJs.send_single_todo_to_slack.
  apply always_lift_bind; intros msg (u & rest & Hu & ->)%server_js_slack_text_user.
  apply always_try_catch.
  - apply server_js_slack_try_always; [ | exact I ].
    exists u, rest. split; [ exact Hu | reflexivity ].
  - intros e _. unfold ServerJs.slack_catch.
    apply always_lift_bind; intros s _. apply always_res_json. exact I.
Qed.

(** With no usable URL the [try] block throws at once. *)
Lemma server_js_unconfigured (url : jsval) (w : world) (msg : string) :
  webhook_configured url = false ->
  try_catch (ServerJs.slack_try url w msg) ServerJs.slack_catch =
  Run [Respond 500
         (JObj [("error",
                 JStr "Internal server error: Slack Webhook URL is not configured in the backend.")])]
      (Normal tt).
Proof.
  intros H. unfold ServerJs.slack_try. rewrite url_guard, H. reflexivity.
Qed.

(** *** part_000 *)

Lemma part_000_final_summary_always (P : event -> Prop) (w : world)
    (text dueDate dueTime summary : jsval) :
  (forall p, P (LlmCall (JStr p))) ->
  always P (Part000.final_summary w text dueDate dueTime summary).
Proof.
  intros HP. unfold Part000.final_summary.
  destruct (negb (truthy summary)); [ | apply always_silent; reflexivity ].
  apply always_try_catch.
  - apply always_lift_bind; intros p _.
    apply always_bind; [ apply always_generateContent, HP | intros s _ ].
    apply always_silent; reflexivity.
  - intros e _. apply always_silent; reflexivity.
Qed.



Lemma part_000_slack_names_user (url : jsval) (w : world) (req : request) :
  always (names_body_user "*New Todo Update from " (body req))
         (Part000.send_single_todo_to_slack url w req).
Proof.
  unfold Part000.send_single_todo_to_slack.
  apply always_lift_bind; intros text _.
  apply always_lift_bind; intros dueDate _.
  apply always_lift_bind; intros dueTime _.
  apply always_lift_bind; intros summary _.
  apply always_lift_bind; intros userId ->%get_normal.
  destruct (negb (truthy text)); [ apply always_res_json; exact I | ].
  apply always_bind;
    [ apply part_000_final_summary_always; intros; exact I | intros f _ ].
  apply always_lift_bind; intros msg Hmsg%part_000_message_user.
  apply always_try_catch.
  - unfold Part000.slack_try.
    apply always_bind.
    { destruct (negb (truthy url) || strict_eq_str url "YOUR_SLACK_WEBHOOK_URL_HERE");
        apply always_silent; reflexivity. }
    intros _ _.
    apply always_bind; [ apply always_fetch_post; exact Hmsg | ].
    intros [st text'] _. cbn [fst snd].
    destruct (is_2xx st); apply always_res_json; exact I.
  - intros e _. apply always_res_json. exact I.
Qed.

Lemma part_000_unconfigured (url : jsval) (w : world) (msg : jsval) :
  webhook_configured url = false ->
  try_catch (Part000.slack_try url w msg) Part000.slack_catch =
  Run [Respond 500
         (JObj [("error", JStr "Internal server error: Could not send message to Slack.")])]
      (Normal tt).
Proof.
  intros H. unfold Part000.slack_try. rewrite url_guard, H. reflexivity.
Qed.

(** The whole exchange with a configured webhook: the POST, then the
    response that its answer decides. *)
Lemma part_000_configured (url : jsval) (w : world) (msg : jsval) :
  webhook_configured url = true ->
  try_catch (Part000.slack_try url w msg) Part000.slack_catch =
  Run [WebhookPost url msg;
       match slack_fetch w url msg with
       | Answered st text =>
           if is_2xx st
           then Respond 200 (JObj [("message", JStr "Todo summary sent to Slack successfully!")])
           else Respond st (JObj [("error", JStr ("Failed to send message to Slack: " +:+ text))])
       | Failed _ =>
           Respond 500 (JObj [("error", JStr "Internal server error: Could not send message to Slack.")])
       end]
      (Normal tt).
Proof.
  intros H. unfold Part000.slack_try, fetch_post. rewrite url_guard, H.
  destruct (slack_fetch w url msg) as [st text | m]; [ destruct (is_2xx st) eqn:Hst | ];
    run_cbn; rewrite ?Hst; reflexivity.
Qed.

(** The summary step of part_000 when the caller sent none: one call,
    and the generated text or the fallback. *)
Lemma part_000_final_summary_run (w : world) (text dueDate dueTime summary : jsval)
    (p : string) (fb : jsval) :
  truthy summary = false ->
  Part000.slack_prompt text dueDate dueTime = Normal p ->
  Part000.fallback_summary text = Normal fb ->
  Part000.final_summary w text dueDate dueTime summary =
  Run [LlmCall (JStr p)]
      (Normal (match gemini_sdk w p with Generated s => JStr s | Refused _ => fb end)).
Proof.
  intros Hs Hp Hfb. unfold Part000.final_summary, Part000.generateContent.
  rewrite Hs, Hp, Hfb. cbn [negb]. run_cbn.
  destruct (gemini_sdk w p); reflexivity.
Qed.

(** With a printable body the summary step returns a printable summary
    and touches neither the webhook nor the response. *)
Lemma part_000_final_summary_defined (w : world) (text dueDate dueTime summary : jsval) :
  plain text = true -> plain dueDate = true -> plain dueTime = true ->
  plain summary = true ->
  exists calls fs,
    Part000.final_summary w text dueDate dueTime summary = Run calls (Normal fs) /\
    plain fs = true /\ webhook_posts calls = [] /\ responses calls = [].
Proof.
  intros Ht Hd Hm Hs.
  destruct (truthy summary) eqn:Hsum.
  - exists [], summary. unfold Part000.final_summary. rewrite Hsum. auto.
  - assert (exists p, Part000.slack_prompt text dueDate dueTime = Normal p) as [p Hp].
    { unfold Part000.slack_prompt.
      destruct (to_string_plain text Ht) as [s1 ->].
      destruct (to_string_plain (js_or dueDate (JStr "Not specified"))) as [s2 ->];
        [ apply js_or_plain; auto | ].
      destruct (to_string_plain (js_or dueTime (JStr "Not specified"))) as [s3 ->];
        [ apply js_or_plain; auto | ].
      cbn. eauto. }
    assert (exists s, Part000.fallback_summary text = Normal (JStr s)) as [fb Hfb].
    { unfold Part000.fallback_summary.
      destruct (to_string_plain text Ht) as [s1 ->]. cbn. eauto. }
    rewrite (part_000_final_summary_run w _ _ _ _ p (JStr fb) Hsum Hp Hfb).
    eexists _, _. split; [ reflexivity | ].
    destruct (gemini_sdk w p); auto.
Qed.

Lemma part_000_message_defined (userId userAgent text dueDate dueTime summary : jsval) :
  plain userId = true -> plain userAgent = true -> plain text = true ->
  plain dueDate = true -> plain dueTime = true -> plain summary = true ->
  exists msg,
    Part000.build_slackMessage userId userAgent text dueDate dueTime summary = Normal msg.
Proof.
  intros Hu Ha Ht Hd Hm Hs. unfold Part000.build_slackMessage.
  destruct (to_string_plain userId Hu) as [s1 ->].
  destruct (to_string_plain userAgent Ha) as [s2 ->].
  destruct (to_string_plain summary Hs) as [s3 ->].
  destruct (to_string_plain text Ht) as [s4 ->].
  destruct (to_string_plain (js_or dueDate (JStr "N/A"))) as [s5 ->];
    [ apply js_or_plain; auto | ].
  destruct (to_string_plain (js_or dueTime (JStr "N/A"))) as [s6 ->];
    [ apply js_or_plain; auto | ].
  cbn. eauto.
Qed.

Lemma user_agent_plain (req : request) :
  plain (js_or (header req "user-agent") (JStr "Unknown User-Agent")) = true.
Proof.
  apply js_or_plain; [ | reflexivity ].
  unfold header. destruct (headers req !! "user-agent"); reflexivity.
Qed.

(** The Slack handler of part_000 on a printable body with a [text]: the
    summary step, then the exchange with the webhook. *)
Lemma part_000_send_run (url : jsval) (w : world) (req : request) :
  printable_body (body req) = true ->
  truthy (opt_get (body req) "text") = true ->
  exists calls fs msg,
    Part000.final_summary w (opt_get (body req) "text")
      (opt_get (body req) "dueDate") (opt_get (body req) "dueTime")
      (opt_get (body req) "summary") = Run calls (Normal fs) /\
    Part000.build_slackMessage (opt_get (body req) "userId")
      (js_or (header req "user-agent") (JStr "Unknown User-Agent"))
      (opt_get (body req) "text") (opt_get (body req) "dueDate")
      (opt_get (body req) "dueTime") fs = Normal msg /\
    webhook_posts calls = [] /\ responses calls = [] /\
    Part000.send_single_todo_to_slack url w req =
    Run (calls ++ trace (try_catch (Part000.slack_try url w msg) Part000.slack_catch))
        (result (try_catch (Part000.slack_try url w msg) Part000.slack_catch)).
Proof.
  intros [Hn Hp]%printable_body_parts Htext.
  destruct (part_000_final_summary_defined w
              (opt_get (body req) "text") (opt_get (body req) "dueDate")
              (opt_get (body req) "dueTime") (opt_get (body req) "summary"))
    as (calls & fs & Hfs & Hplain & Hposts & Hresp); try (apply Hp; in_fields).
  destruct (part_000_message_defined (opt_get (body req) "userId")
              (js_or (header req "user-agent") (JStr "Unknown User-Agent"))
              (opt_get (body req) "text") (opt_get (body req) "dueDate")
              (opt_get (body req) "dueTime") fs)
    as [msg Hmsg]; try (apply Hp; in_fields); auto using user_agent_plain.
  exists calls, fs, msg. repeat split; try assumption.
  unfold Part000.send_single_todo_to_slack.
  rewrite !(get_defined (body req) _ Hn), !bind_lift, Htext. cbn [negb].
  rewrite (bind_normal _ _ fs) by (rewrite Hfs; reflexivity).
  rewrite Hfs, Hmsg, bind_lift. reflexivity.
Qed.

End SlackFacts.

(** ** How each handler can run *)

Module CaseFacts.
Import JS Express Observe Claims Behaviour ValueFacts RunFacts BodyFacts
  SummarizeFacts SlackFacts.

Lemma axios_post_run (call : event) (answer : http_outcome jsval) :
  axios_post call answer =
  Run [call]
      (if resolves answer
       then match answer with
            | Answered st d => Normal (st, d)
            | Failed _ => Throw (rejection answer)
            end
       else Throw (rejection answer)).
Proof.
  unfold axios_post, resolves.
  destruct answer as [st d | msg]; [ destruct (is_2xx st) | ]; reflexivity.
Qed.

(** The [try] block of the axios summarize handlers, with the summary
    that stands in when the guard fails: a 200 that carries the first
    candidate's text or the stand-in, or an exception, which is axios's
    rejection or a TypeError met while reading the answer. *)
Lemma axios_summarize_try_cases (w : world) (p : string) (fallback : jsval) :
  let payload := ServerJs.llm_payload p in
  let m :=
    (llmResponse ← axios_post (LlmCall payload) (gemini_http w payload);
     present ← lift (has_candidate_parts w llmResponse.2);
     summary ← (if (present : bool) then lift (first_candidate_text llmResponse.2)
                else mret fallback);
     res_json 200 [("message", JStr "Single todo summary generated successfully.");
                   ("summary", summary)]) in
  (exists st d v,
     gemini_http w payload = Answered st d /\ is_2xx st = true /\
     (has_candidate_parts w d = Normal true /\ first_candidate_text d = Normal v \/
      has_candidate_parts w d = Normal false /\ v = fallback) /\
     m = Run [LlmCall payload;
              Respond 200
                (JObj (stringify_props
                         [("message", JStr "Single todo summary generated successfully.");
                          ("summary", v)]))]
             (Normal tt)) \/
  (exists e,
     m = Run [LlmCall payload] (Throw e) /\
     (resolves (gemini_http w payload) = true /\ response e = None \/
      resolves (gemini_http w payload) = false /\ e = rejection (gemini_http w payload))).
Proof.
  intros payload m. subst m. rewrite axios_post_run.
  destruct (gemini_http w payload) as [st d | msg] eqn:Hanswer;
    [ cbn [resolves]; destruct (is_2xx st) eqn:Hst | ].
  - rewrite (bind_normal _ _ (st, d)) by reflexivity. cbn [trace snd].
    rewrite bind_lift.
    destruct (has_candidate_parts w d) as [present | e] eqn:Hguard.
    + destruct present.
      * rewrite bind_lift.
        destruct (first_candidate_text d) as [v | e] eqn:Htext.
        -- left. exists st, d, v. repeat split; auto.
        -- right. exists e. split; [ reflexivity | left; split; [ reflexivity | ] ].
           exact (bare_first_candidate_text d e Htext).
      * left. exists st, d, fallback. repeat split; auto.
    + right. exists e. split; [ reflexivity | left; split; [ reflexivity | ] ].
      exact (bare_has_candidate_parts w d e Hguard).
  - right. eexists. split; [ reflexivity | right; split; reflexivity ].
  - right. eexists. split; [ reflexivity | right; split; reflexivity ].
Qed.

(** The [catch] block of src/server.js and part_000 on the summarize
    route: a 500 with the printed detail, unless the detail does not
    print. *)
Lemma summarize_catch_run (e : js_error) :
  ServerJs.summarize_catch e =
  match to_string (ServerJs.llm_error_detail e) with
  | Normal s =>
      Run [Respond 500
             (JObj [("error", JStr ("Error generating summary for single todo: " +:+ s))])]
          (Normal tt)
  | Throw e' => Run [] (Throw e')
  end.
Proof.
  unfold ServerJs.summarize_catch. rewrite bind_lift.
  destruct (to_string (ServerJs.llm_error_detail e)); reflexivity.
Qed.

Lemma part_000_summarize_catch_run (e : js_error) :
  Part000.summarize_catch e = ServerJs.summarize_catch e.
Proof. reflexivity. Qed.

Lemma generateContent_run (w : world) (p : string) :
  Part000.generateContent w p =
  Run [LlmCall (JStr p)]
      match gemini_sdk w p with Generated s => Normal s | Refused e => Throw e end.
Proof.
  unfold Part000.generateContent. destruct (gemini_sdk w p); reflexivity.
Qed.

(** *** Orderly runs *)

Ltac orderly_with llm posts :=
  exists llm, posts;
  split; [ cbn [length]; unfold Nat.le; lia
         | split; [ cbn [length]; unfold Nat.le; lia
                  | cbn [result trace calls_of map app fst snd]; eauto ] ].

Lemma orderly_threw (l p : nat) (e : js_error) : orderly l p (Run [] (Throw e)).
Proof. orderly_with (@nil jsval) (@nil (jsval * jsval)). Qed.

Lemma orderly_answered (l p : nat) (status : Z) (b : jsval) :
  orderly l p (Run [Respond status b] (Normal tt)).
Proof. orderly_with (@nil jsval) (@nil (jsval * jsval)). Qed.

Lemma orderly_called_threw (p : nat) (c : jsval) (e : js_error) :
  orderly 1 p (Run [LlmCall c] (Throw e)).
Proof. orderly_with [c] (@nil (jsval * jsval)). Qed.

Lemma orderly_called_answered (p : nat) (c : jsval) (status : Z) (b : jsval) :
  orderly 1 p (Run [LlmCall c; Respond status b] (Normal tt)).
Proof. orderly_with [c] (@nil (jsval * jsval)). Qed.

Lemma orderly_posted_threw (l : nat) (url payload : jsval) (e : js_error) :
  orderly l 1 (Run [WebhookPost url payload] (Throw e)).
Proof. orderly_with (@nil jsval) [(url, payload)]. Qed.

Lemma orderly_posted_answered (l : nat) (url payload : jsval) (status : Z) (b : jsval) :
  orderly l 1 (Run [WebhookPost url payload; Respond status b] (Normal tt)).
Proof. orderly_with (@nil jsval) [(url, payload)]. Qed.

Lemma orderly_called_posted_answered (c url payload : jsval) (status : Z) (b : jsval) :
  orderly 1 1 (Run [LlmCall c; WebhookPost url payload; Respond status b] (Normal tt)).
Proof. orderly_with [c] [(url, payload)]. Qed.

(** *** The summarize route *)

Lemma server_js_summarize_orderly (w : world) (req : request) :
  orderly 1 0 (ServerJs.summarize_single_todo w req).
Proof.
  unfold ServerJs.summarize_single_todo. rewrite bind_lift.
  destruct (ServerJs.summarize_prompt (body req)) as [p | e];
    [ | apply orderly_threw ].
  destruct (axios_summarize_try_cases w p
              (JStr "Could not generate a meaningful summary for this todo."))
    as [(st & d & v & _ & _ & _ & Hrun) | (e & Hrun & _)];
    unfold ServerJs.summarize_try; cbv zeta; rewrite Hrun.
  - apply orderly_called_answered.
  - rewrite (try_catch_throw _ _ e) by reflexivity. rewrite summarize_catch_run.
    destruct (to_string (ServerJs.llm_error_detail e)); cbn [trace result app].
    + apply orderly_called_answered.
    + apply orderly_called_threw.
Qed.

Lemma part_000_summarize_orderly (w : world) (req : request) :
  orderly 1 0 (Part000.summarize_single_todo w req).
Proof.
  unfold Part000.summarize_single_todo. rewrite bind_lift.
  destruct (Part000.summarize_prompt (body req)) as [p | e];
    [ | apply orderly_threw ].
  unfold Part000.summarize_try. rewrite generateContent_run.
  destruct (gemini_sdk w p) as [s | e].
  - apply orderly_called_answered.
  - rewrite (bind_throw _ _ e) by reflexivity.
    rewrite (try_catch_throw _ _ e) by reflexivity.
    rewrite part_000_summarize_catch_run, summarize_catch_run.
    destruct (to_string (ServerJs.llm_error_detail e)); cbn [trace result app].
    + apply orderly_called_answered.
    + apply orderly_called_threw.
Qed.

(** *** The Slack route of src/server.js and part_001 *)

Lemma server_js_slack_catch_run (e : js_error) :
  ServerJs.slack_catch e =
  match to_string (ServerJs.slack_error_detail e) with
  | Normal s =>
      Run [Respond (ServerJs.slack_error_status e)
             (JObj [("error", JStr ("Internal server error: " +:+ s))])]
          (Normal tt)
  | Throw e' => Run [] (Throw e')
  end.
Proof.
  unfold ServerJs.slack_catch. rewrite bind_lift.
  destruct (to_string (ServerJs.slack_error_detail e)); reflexivity.
Qed.

(** The exchange with a configured webhook: the POST, then the success
    response when axios resolves, and the [catch] block on axios's
    rejection otherwise. *)
Lemma server_js_configured (url : jsval) (w : world) (msg : string) :
  webhook_configured url = true ->
  try_catch (ServerJs.slack_try url w msg) ServerJs.slack_catch =
  let payload := JObj [("text", JStr msg)] in
  let answer := slack_http w url payload in
  if resolves answer
  then Run [WebhookPost url payload;
            Respond 200 (JObj [("message", JStr "Todo sent to Slack successfully!")])]
           (Normal tt)
  else Run (WebhookPost url payload :: trace (ServerJs.slack_catch (rejection answer)))
           (result (ServerJs.slack_catch (rejection answer))).
Proof.
  intros H. unfold ServerJs.slack_try. rewrite url_guard, H, axios_post_run.
  cbn [negb]. cbv zeta.
  destruct (slack_http w url (JObj [("text", JStr msg)])) as [st d | m];
    cbn [resolves]; [ destruct (is_2xx st) eqn:Hst | ].
  - unfold is_2xx in Hst. run_cbn. rewrite Hst. reflexivity.
  - reflexivity.
  - reflexivity.
Qed.

Lemma server_js_slack_orderly (url : jsval) (w : world) (req : request) :
  orderly 0 1 (ServerJs.send_single_todo_to_slack url w req).
Proof.
  unfold ServerJs.send_single_todo_to_slack. rewrite bind_lift.
  destruct (ServerJs.slack_text (body req)) as [msg | e];
    [ | apply orderly_threw ].
  destruct (webhook_configured url) eqn:Hurl.
  - rewrite (server_js_configured url w msg Hurl). cbv zeta.
    destruct (resolves _); [ apply orderly_posted_answered | ].
    rewrite server_js_slack_catch_run.
    destruct (to_string _); cbn [trace result].
    + apply orderly_posted_answered.
    + apply orderly_posted_threw.
  - rewrite (server_js_unconfigured url w msg Hurl). apply orderly_answered.
Qed.

(** *** The Slack route of part_000 *)

(** The summary step makes at most one call and nothing else. *)
Lemma part_000_final_summary_calls (w : world) (text dueDate dueTime summary : jsval) :
  trace (Part000.final_summary w text dueDate dueTime summary) = [] \/
  exists p, trace (Part000.final_summary w text dueDate dueTime summary)
            = [LlmCall (JStr p)].
Proof.
  unfold Part000.final_summary.
  destruct (negb (truthy summary)); [ | left; reflexivity ].
  rewrite bind_lift.
  destruct (Part000.slack_prompt text dueDate dueTime) as [p | e].
  - right. exists p. rewrite generateContent_run.
    destruct (gemini_sdk w p) as [s | e]; [ reflexivity | ].
    rewrite (bind_throw _ _ e) by reflexivity.
    rewrite (try_catch_throw _ _ e) by reflexivity. reflexivity.
  - left. rewrite (try_catch_throw _ _ e) by reflexivity. reflexivity.
Qed.

(** The exchange of part_000 with the webhook, whatever the URL. *)
Lemma part_000_exchange (url : jsval) (w : world) (msg : jsval) :
  exists status b,
    try_catch (Part000.slack_try url w msg) Part000.slack_catch =
    Run (if webhook_configured url then [WebhookPost url msg; Respond status b]
         else [Respond status b])
        (Normal tt).
Proof.
  destruct (webhook_configured url) eqn:Hurl.
  - rewrite (part_000_configured url w msg Hurl).
    destruct (slack_fetch w url msg) as [st text | m];
      [ destruct (is_2xx st) | ]; eauto.
  - rewrite (part_000_unconfigured url w msg Hurl). eauto.
Qed.

Lemma part_000_slack_orderly (url : jsval) (w : world) (req : request) :
  orderly 1 1 (Part000.send_single_todo_to_slack url w req).
Proof.
  unfold Part000.send_single_todo_to_slack.
  destruct (nullish (body req)) eqn:Hn.
  { destruct (body req); try discriminate Hn; apply orderly_threw. }
  rewrite !(get_defined (body req) _ Hn), !bind_lift.
  destruct (negb (truthy (opt_get (body req) "text"))); [ apply orderly_answered | ].
  set (fs := Part000.final_summary w _ _ _ _).
  destruct (result fs) as [v | e] eqn:Hresult.
  - rewrite (bind_normal _ _ v Hresult), bind_lift.
    destruct (Part000.build_slackMessage _ _ _ _ _ v) as [msg | e].
    + destruct (part_000_exchange url w msg) as (status & b & ->).
      cbn [trace result].
      destruct (part_000_final_summary_calls w (opt_get (body req) "text")
                  (opt_get (body req) "dueDate") (opt_get (body req) "dueTime")
                  (opt_get (body req) "summary")) as [Hcalls | [p Hcalls]];
        fold fs in Hcalls; rewrite Hcalls; destruct (webhook_configured url);
        cbn [app].
      * apply orderly_posted_answered.
      * apply orderly_answered.
      * apply orderly_called_posted_answered.
      * apply orderly_called_answered.
    + cbn [throw trace result].
      destruct (part_000_final_summary_calls w (opt_get (body req) "text")
                  (opt_get (body req) "dueDate") (opt_get (body req) "dueTime")
                  (opt_get (body req) "summary")) as [Hcalls | [p Hcalls]];
        fold fs in Hcalls; rewrite Hcalls; cbn [app].
      * apply orderly_threw.
      * apply orderly_called_threw.
  - rewrite (bind_throw _ _ e Hresult).
    destruct (part_000_final_summary_calls w (opt_get (body req) "text")
                (opt_get (body req) "dueDate") (opt_get (body req) "dueTime")
                (opt_get (body req) "summary")) as [Hcalls | [p Hcalls]];
      fold fs in Hcalls; rewrite Hcalls.
    + apply orderly_threw.
    + apply orderly_called_threw.
Qed.



(** *** A property that does not print *)

Lemma unprintable_truthy (v : jsval) (e : js_error) :
  to_string v = Throw e -> truthy v = true.
Proof. destruct v as [ | | [ | ] | | | | ]; try discriminate; reflexivity. Qed.

(** Runs a pure prefix in which the print of one property is known to
    throw: every other print either succeeds or throws the same error. *)
Ltac prints_until_throw :=
  cbn [mbind completion_bind];
  repeat first
    [ match goal with
      | H : to_string ?v = Throw _ |- context [to_string ?v] =>
          rewrite H; cbn [mbind completion_bind]
      | H : truthy ?v = true |- context [truthy ?v] =>
          rewrite H; cbn [mbind completion_bind negb]
      end
    | match goal with
      | |- context [to_string ?v] =>
          let s := fresh "s" in
          let e := fresh "e" in
          let H := fresh "H" in
          destruct (to_string v) as [s | e] eqn:H;
          [ | rewrite (to_string_throw _ _ H) ];
          cbn [mbind completion_bind]
      | |- context [if truthy ?v then _ else _] =>
          destruct (truthy v); cbn [mbind completion_bind negb]
      end ].

Lemma prompts_throw (b : jsval) :
  nullish b = false ->
  unprintable b ["text"; "dueDate"; "dueTime"] ->
  ServerJs.summarize_prompt b = Throw cannot_convert /\
  Part000.summarize_prompt b = Throw cannot_convert /\
  Part001.summarize_prompt b = Throw cannot_convert /\
  ServerJs.slack_text b = Throw cannot_convert.
Proof.
  intros Hn (k & e & Hin & Hk).
  pose proof (unprintable_truthy _ _ Hk) as Ht.
  rewrite (to_string_throw _ _ Hk) in Hk.
  unfold ServerJs.summarize_prompt, Part000.summarize_prompt,
    Part001.summarize_prompt, ServerJs.slack_text.
  rewrite !(get_defined b _ Hn).
  destruct Hin as [<- | [<- | [<- | []]]];
    (split; [ | split; [ | split ] ]); prints_until_throw; reflexivity.
Qed.

Lemma fallback_summary_throw (text : jsval) (e : js_error) :
  Part000.fallback_summary text = Throw e -> e = cannot_convert.
Proof.
  unfold Part000.fallback_summary.
  destruct (to_string text) as [t | e'] eqn:H; cbn [mbind completion_bind];
    [ discriminate | ].
  intros [= <-]. exact (to_string_throw _ _ H).
Qed.

Lemma part_000_slack_throws (url : jsval) (w : world) (req : request) :
  nullish (body req) = false ->
  unprintable (body req) ["text"; "dueDate"; "dueTime"] ->
  truthy (opt_get (body req) "text") = true ->
  Part000.send_single_todo_to_slack url w req = Run [] (Throw cannot_convert).
Proof.
  intros Hn (k & e & Hin & Hk) Htext.
  pose proof (unprintable_truthy _ _ Hk) as Ht.
  rewrite (to_string_throw _ _ Hk) in Hk.
  assert (forall u a f,
            Part000.build_slackMessage u a (opt_get (body req) "text")
              (opt_get (body req) "dueDate") (opt_get (body req) "dueTime") f
            = Throw cannot_convert) as Hbuild.
  { intros u a f. unfold Part000.build_slackMessage, js_or.
    destruct Hin as [<- | [<- | [<- | []]]]; prints_until_throw; reflexivity. }
  assert (Part000.slack_prompt (opt_get (body req) "text")
            (opt_get (body req) "dueDate") (opt_get (body req) "dueTime")
          = Throw cannot_convert) as Hprompt.
  { unfold Part000.slack_prompt, js_or.
    destruct Hin as [<- | [<- | [<- | []]]]; prints_until_throw; reflexivity. }
  unfold Part000.send_single_todo_to_slack.
  rewrite !(get_defined (body req) _ Hn), !bind_lift, Htext. cbn [negb].
  unfold Part000.final_summary.
  destruct (truthy (opt_get (body req) "summary")); cbn [negb].
  - rewrite (bind_normal _ _ (opt_get (body req) "summary")) by reflexivity.
    rewrite bind_lift, Hbuild. reflexivity.
  - rewrite Hprompt, bind_lift.
    rewrite (try_catch_throw _ _ cannot_convert) by reflexivity.
    destruct (Part000.fallback_summary (opt_get (body req) "text")) as [fb | e'] eqn:Hfb.
    + rewrite (bind_normal _ _ fb) by reflexivity.
      rewrite bind_lift, Hbuild. reflexivity.
    + rewrite (fallback_summary_throw _ _ Hfb). reflexivity.
Qed.

(** *** The summary step of part_000 *)

Lemma llm_calls_app (t u : list event) :
  llm_calls (t ++ u) = llm_calls t ++ llm_calls u.
Proof.
  induction t as [ | [c | url payload | status b] t IH]; simpl; rewrite ?IH; reflexivity.
Qed.

Lemma part_000_slack_prompt_defined (text dueDate dueTime : jsval) :
  plain text = true -> plain dueDate = true -> plain dueTime = true ->
  exists p, Part000.slack_prompt text dueDate dueTime = Normal p.
Proof.
  intros Ht Hd Hm. unfold Part000.slack_prompt.
  destruct (to_string_plain text Ht) as [s1 ->].
  destruct (to_string_plain (js_or dueDate (JStr "Not specified"))) as [s2 ->];
    [ apply js_or_plain; auto | ].
  destruct (to_string_plain (js_or dueTime (JStr "Not specified"))) as [s3 ->];
    [ apply js_or_plain; auto | ].
  cbn. eauto.
Qed.

Lemma part_000_fallback_defined (text : jsval) :
  plain text = true -> exists fb, Part000.fallback_summary text = Normal fb.
Proof.
  intros Ht. unfold Part000.fallback_summary.
  destruct (to_string_plain text Ht) as [s1 ->]. cbn. eauto.
Qed.

Lemma part_000_configured_calls (url : jsval) (w : world) (msg : jsval) :
  webhook_configured url = true ->
  webhook_posts (trace (try_catch (Part000.slack_try url w msg) Part000.slack_catch))
    = [(url, msg)] /\
  llm_calls (trace (try_catch (Part000.slack_try url w msg) Part000.slack_catch)) = [].
Proof.
  intros Hurl. rewrite (part_000_configured url w msg Hurl). cbn [trace].
  destruct (slack_fetch w url msg) as [st text | m]; [ destruct (is_2xx st) | ];
    split; reflexivity.
Qed.

(** *** The requests sent to the generative endpoint *)

Lemma llm_calls_calls_of (posts : list (jsval * jsval)) (rest : list (Z * jsval)) :
  llm_calls (calls_of [] posts ++ map (fun r => Respond r.1 r.2) rest) = [].
Proof.
  unfold calls_of. cbn [map app].
  induction posts as [ | [url payload] posts IH]; cbn [map app llm_calls fst snd];
    [ | exact IH ].
  induction rest as [ | [status b] rest IH]; cbn [map llm_calls]; auto.
Qed.

Lemma orderly_no_llm (p : nat) (m : M unit) :
  orderly 0 p m -> llm_calls (trace m) = [].
Proof.
  intros (llm & posts & Hl & _ & Hrun).
  destruct llm as [ | c llm]; [ | inversion Hl ].
  destruct (result m).
  - destruct Hrun as (status & b & ->).
    exact (llm_calls_calls_of posts [(status, b)]).
  - rewrite Hrun, <- (app_nil_r (calls_of [] posts)).
    exact (llm_calls_calls_of posts []).
Qed.

Lemma axios_summarize_llm_calls (w : world) (p : string) (fallback : jsval)
    (h : js_error -> M unit) :
  (forall e, llm_calls (trace (h e)) = []) ->
  let payload := ServerJs.llm_payload p in
  llm_calls
    (trace
       (try_catch
          (llmResponse ← axios_post (LlmCall payload) (gemini_http w payload);
           present ← lift (has_candidate_parts w llmResponse.2);
           summary ← (if (present : bool) then lift (first_candidate_text llmResponse.2)
                      else mret fallback);
           res_json 200 [("message", JStr "Single todo summary generated successfully.");
                         ("summary", summary)])
          h)) = [payload].
Proof.
  intros Hh payload.
  destruct (axios_summarize_try_cases w p fallback)
    as [(st & d & v & _ & _ & _ & Hrun) | (e & Hrun & _)]; fold payload in Hrun;
    rewrite Hrun.
  - reflexivity.
  - rewrite (try_catch_throw _ _ e) by reflexivity. cbn [trace].
    rewrite llm_calls_app, Hh. reflexivity.
Qed.

Lemma summarize_catch_llm_calls (e : js_error) :
  llm_calls (trace (ServerJs.summarize_catch e)) = [].
Proof.
  rewrite summarize_catch_run. destruct (to_string _); reflexivity.
Qed.

Lemma server_js_summarize_llm_calls (w : world) (req : request) :
  llm_calls (trace (ServerJs.summarize_single_todo w req)) =
  match ServerJs.summarize_prompt (body req) with
  | Normal p => [ServerJs.llm_payload p]
  | Throw _ => []
  end.
Proof.
  unfold ServerJs.summarize_single_todo. rewrite bind_lift.
  destruct (ServerJs.summarize_prompt (body req)) as [p | e]; [ | reflexivity ].
  exact (axios_summarize_llm_calls w p _ ServerJs.summarize_catch summarize_catch_llm_calls).
Qed.

Lemma part_001_summarize_llm_calls (w : world) (req : request) :
  llm_calls (trace (Part001.summarize_single_todo w req)) =
  match Part001.summarize_prompt (body req) with
  | Normal p => [ServerJs.llm_payload p]
  | Throw _ => []
  end.
Proof.
  unfold Part001.summarize_single_todo. rewrite bind_lift.
  destruct (Part001.summarize_prompt (body req)) as [p | e]; [ | reflexivity ].
  exact (axios_summarize_llm_calls w p _ Part001.summarize_catch (fun _ => eq_refl)).
Qed.

Lemma part_000_summarize_llm_calls (w : world) (req : request) :
  llm_calls (trace (Part000.summarize_single_todo w req)) =
  match Part000.summarize_prompt (body req) with
  | Normal p => [JStr p]
  | Throw _ => []
  end.
Proof.
  unfold Part000.summarize_single_todo. rewrite bind_lift.
  destruct (Part000.summarize_prompt (body req)) as [p | e]; [ | reflexivity ].
  unfold Part000.summarize_try. rewrite generateContent_run.
  destruct (gemini_sdk w p) as [s | e]; [ reflexivity | ].
  rewrite (bind_throw _ _ e) by reflexivity.
  rewrite (try_catch_throw _ _ e) by reflexivity. cbn [trace].
  rewrite llm_calls_app, part_000_summarize_catch_run, summarize_catch_llm_calls.
  reflexivity.
Qed.

Lemma part_000_exchange_llm_calls (url : jsval) (w : world) (msg : jsval) :
  llm_calls (trace (try_catch (Part000.slack_try url w msg) Part000.slack_catch)) = [].
Proof.
  destruct (part_000_exchange url w msg) as (status & b & ->).
  destruct (webhook_configured url); reflexivity.
Qed.

Lemma part_000_slack_llm_calls (url : jsval) (w : world) (req : request) :
  llm_calls (trace (Part000.send_single_todo_to_slack url w req)) =
  if nullish (body req) || negb (truthy (opt_get (body req) "text")) then []
  else llm_calls
         (trace (Part000.final_summary w (opt_get (body req) "text")
                   (opt_get (body req) "dueDate") (opt_get (body req) "dueTime")
                   (opt_get (body req) "summary"))).
Proof.
  unfold Part000.send_single_todo_to_slack.
  destruct (nullish (body req)) eqn:Hn.
  { destruct (body req); try discriminate Hn; reflexivity. }
  rewrite !(get_defined (body req) _ Hn), !bind_lift. cbn [orb].
  destruct (negb (truthy (opt_get (body req) "text"))); [ reflexivity | ].
  set (fs := Part000.final_summary w _ _ _ _).
  destruct (result fs) as [v | e] eqn:Hresult.
  - rewrite (bind_normal _ _ v Hresult), bind_lift. cbn [trace].
    rewrite llm_calls_app.
    destruct (Part000.build_slackMessage _ _ _ _ _ v) as [msg | e].
    + rewrite part_000_exchange_llm_calls. apply app_nil_r.
    + apply app_nil_r.
  - rewrite (bind_throw _ _ e Hresult). reflexivity.
Qed.

Lemma same_prompts (b1 b2 : jsval) :
  same_prompt_fields b1 b2 ->
  nullish b1 = true /\ nullish b2 = true \/
  nullish b1 = false /\ nullish b2 = false /\
  ServerJs.summarize_prompt b1 = ServerJs.summarize_prompt b2 /\
  Part000.summarize_prompt b1 = Part000.summarize_prompt b2 /\
  Part001.summarize_prompt b1 = Part001.summarize_prompt b2.
Proof.
  intros [Hn Hfields].
  destruct (nullish b1) eqn:H1; [ left; auto | right ].
  symmetry in Hn. repeat (split; [ assumption || reflexivity | ]).
  unfold ServerJs.summarize_prompt, Part000.summarize_prompt, Part001.summarize_prompt.
  rewrite !(get_defined b1 _ H1), !(get_defined b2 _ Hn).
  rewrite !(Hfields "text"), !(Hfields "dueDate"), !(Hfields "dueTime")
    by (unfold fields_prompted; in_fields).
  repeat split; reflexivity.
Qed.

Lemma nullish_prompts (b : jsval) :
  nullish b = true ->
  (exists e, ServerJs.summarize_prompt b = Throw e) /\
  (exists e, Part000.summarize_prompt b = Throw e) /\
  (exists e, Part001.summarize_prompt b = Throw e).
Proof.
  destruct b; try discriminate; intros _; repeat split; eexists; reflexivity.
Qed.

(** *** Where the message goes *)

Lemma server_js_configured_posts (url : jsval) (w : world) (msg : string) :
  webhook_configured url = true ->
  webhook_posts (trace (try_catch (ServerJs.slack_try url w msg) ServerJs.slack_catch))
    = [(url, JObj [("text", JStr msg)])].
Proof.
  intros Hurl. rewrite (server_js_configured url w msg Hurl). cbv zeta.
  destruct (resolves _); [ reflexivity | ].
  rewrite server_js_slack_catch_run. destruct (to_string _); reflexivity.
Qed.

Lemma server_js_posts_to (url : jsval) (w : world) (req : request) :
  printable_body (body req) = true ->
  posts_to (if webhook_configured url then Some url else None)
           (ServerJs.send_single_todo_to_slack url w req).
Proof.
  intros Hbody. unfold ServerJs.send_single_todo_to_slack.
  destruct (server_js_slack_text_defined _ Hbody) as [msg ->]. rewrite bind_lift.
  destruct (webhook_configured url) eqn:Hurl; cbn [posts_to].
  - eexists. apply server_js_configured_posts, Hurl.
  - rewrite (server_js_unconfigured url w msg Hurl). reflexivity.
Qed.

Lemma part_000_posts_to (url : jsval) (w : world) (req : request) :
  printable_body (body req) = true ->
  truthy (opt_get (body req) "text") = true ->
  posts_to (if webhook_configured url then Some url else None)
           (Part000.send_single_todo_to_slack url w req).
Proof.
  intros Hbody Htext.
  destruct (part_000_send_run url w req Hbody Htext)
    as (calls & fs & msg & _ & _ & Hposts & _ & ->).
  destruct (webhook_configured url) eqn:Hurl; cbn [posts_to trace].
  - exists msg. rewrite webhook_posts_app, Hposts.
    destruct (part_000_configured_calls url w msg Hurl) as [-> _]. reflexivity.
  - rewrite (part_000_unconfigured url w msg Hurl), webhook_posts_app, Hposts.
    reflexivity.
Qed.

(** *** The origin check *)

Lemma indexOf_from_found (i : Z) (l : list string) (v : jsval) :
  0 <= i ->
  (Ingress.indexOf_from i l v = -1 <-> ~ exists s, v = JStr s /\ In s l) /\
  -1 <= Ingress.indexOf_from i l v.
Proof.
  revert i. induction l as [ | x l IH]; intros i Hi; cbn [Ingress.indexOf_from].
  - split; [ | lia ]. split; [ intros _ (s & _ & []) | reflexivity ].
  - unfold strict_eq_str. destruct v as [ | | b | n | t | elems | props];
      try solve [ destruct (IH (i + 1)) as [[H1 H2] H3]; [ lia | ];
                  split; [ split; [ intros _ (s & [=] & _)
                                  | intros _; apply H2; intros (s & [=] & _) ]
                         | exact H3 ] ].
    destruct (String.eqb_spec t x) as [-> | Hne].
    + split; [ | lia ]. split; [ lia | ].
      intros H. exfalso. apply H. exists x. split; [ reflexivity | left; reflexivity ].
    + destruct (IH (i + 1)) as [[H1 H2] H3]; [ lia | ]. split; [ | exact H3 ].
      split.
      * intros H (s & [= <-] & [-> | Hin]); [ congruence | ].
        apply (H1 H). exists t. auto.
      * intros H. apply H2. intros (s & Hs & Hin). apply H. exists s. split; [ exact Hs | right; exact Hin ].
Qed.

Lemma origin_admits (o : jsval) :
  (Ingress.origin o = (None, true) /\
   (truthy o = false \/ exists s, o = JStr s /\ In s Ingress.allowedOrigins)) \/
  (Ingress.origin o = (Some (new_Error Ingress.cors_message), false) /\
   truthy o = true /\ ~ exists s, o = JStr s /\ In s Ingress.allowedOrigins).
Proof.
  unfold Ingress.origin, Ingress.indexOf.
  destruct (truthy o) eqn:Ho; cbn [negb]; [ | left; auto ].
  destruct (indexOf_from_found 0 Ingress.allowedOrigins o) as [[H1 H2] _]; [ lia | ].
  destruct (Z.eqb_spec (Ingress.indexOf_from 0 Ingress.allowedOrigins o) (-1)) as [Heq | Hne].
  - right. auto.
  - left. split; [ reflexivity | right ].
    destruct o as [ | | b | n | t | elems | props];
      try solve [ exfalso; apply Hne, H2; intros (s & [=] & _) ].
    exists t. split; [ reflexivity | ].
    destruct (in_dec String.string_dec t Ingress.allowedOrigins) as [Hin | Hout];
      [ exact Hin | ].
    exfalso. apply Hne, H2. intros (s & [= <-] & Hin). exact (Hout Hin).
Qed.

(** *** Exactly one response *)

Lemma responses_calls_of (llm : list jsval) (posts : list (jsval * jsval)) :
  responses (calls_of llm posts) = [].
Proof.
  unfold calls_of. rewrite responses_app.
  induction llm as [ | c llm IH]; cbn [map responses app]; [ | exact IH ].
  induction posts as [ | [url payload] posts IH]; cbn [map responses fst snd]; auto.
Qed.

Lemma orderly_responses (l p : nat) (m : M unit) :
  orderly l p m ->
  match result m with
  | Normal _ => exists status b, responses (trace m) = [(status, b)]
  | Throw _ => responses (trace m) = []
  end.
Proof.
  intros (llm & posts & _ & _ & Hrun). destruct (result m).
  - destruct Hrun as (status & b & ->). exists status, b.
    rewrite responses_app, responses_calls_of. reflexivity.
  - rewrite Hrun. apply responses_calls_of.
Qed.

Lemma slack_detail_prints (answer : http_outcome jsval) :
  match answer with Answered _ d => plain d = true | Failed _ => True end ->
  exists s, to_string (ServerJs.slack_error_detail (rejection answer)) = Normal s.
Proof.
  intros Hplain. apply to_string_plain. unfold ServerJs.slack_error_detail.
  apply js_or_plain; [ | reflexivity ].
  apply opt_get_plain. unfold response_data.
  destruct answer as [st d | m]; [ exact Hplain | reflexivity ].
Qed.

Lemma server_js_slack_returns (url : jsval) (w : world) (req : request) :
  printable_body (body req) = true ->
  (forall u m st d, slack_http w u m = Answered st d -> plain d = true) ->
  result (ServerJs.send_single_todo_to_slack url w req) = Normal tt.
Proof.
  intros Hbody Hplain. unfold ServerJs.send_single_todo_to_slack.
  destruct (server_js_slack_text_defined _ Hbody) as [msg ->]. rewrite bind_lift.
  destruct (webhook_configured url) eqn:Hurl.
  - rewrite (server_js_configured url w msg Hurl). cbv zeta.
    destruct (resolves _); [ reflexivity | ].
    rewrite server_js_slack_catch_run.
    destruct (slack_detail_prints (slack_http w url (JObj [("text", JStr msg)])))
      as [s ->]; [ | reflexivity ].
    destruct (slack_http w url (JObj [("text", JStr msg)])) as [st d | m] eqn:Hanswer;
      [ exact (Hplain _ _ _ _ Hanswer) | exact I ].
  - rewrite (server_js_unconfigured url w msg Hurl). reflexivity.
Qed.

Lemma part_000_slack_returns (url : jsval) (w : world) (req : request) :
  printable_body (body req) = true ->
  result (Part000.send_single_todo_to_slack url w req) = Normal tt.
Proof.
  intros Hbody.
  destruct (truthy (opt_get (body req) "text")) eqn:Htext.
  - destruct (part_000_send_run url w req Hbody Htext)
      as (calls & fs & msg & _ & _ & _ & _ & ->).
    destruct (part_000_exchange url w msg) as (status & b & ->). reflexivity.
  - destruct (printable_body_parts _ Hbody) as [Hn _].
    unfold Part000.send_single_todo_to_slack.
    rewrite !(get_defined (body req) _ Hn), !bind_lift, Htext. reflexivity.
Qed.
End CaseFacts.

(** ** The claims *)

Import JS Express Observe Claims ValueFacts RunFacts BodyFacts SummarizeFacts SlackFacts.




(** C2 on the code: src/server.js and part_001 have no check of [text].
    Sent [{}], with the webhook accepting, both POST a message about the
    todo "undefined" to the webhook and respond 200; part_000, on the same
    request, responds 400 and calls nothing. *)
Lemma C2_server_js_posts_without_text :
  opt_get (body empty_body) "text" = JUndefined /\
  trace (ServerJs.app all_well send_single_todo_to_slack_route empty_body) =
    [WebhookPost ServerJs.SLACK_WEBHOOK_URL
       (JObj [("text", JStr ("*New Todo Alert for User undefined*:" +:+ nl
                             +:+ "*Task*: undefined" +:+ nl
                             +:+ "_No summary provided._" +:+ nl))]);
     Respond 200 (JObj [("message", JStr "Todo sent to Slack successfully!")])] /\
  responses (trace (Part001.app all_well send_single_todo_to_slack_route empty_body)) =
    [(200, JObj [("message", JStr "Todo sent to Slack successfully!")])] /\
  rejects_missing_text (Part000.app all_well send_single_todo_to_slack_route empty_body).
Proof. repeat split; reflexivity. Qed.

(** C3 on the code: the [catch] block of the summarize handler of
    part_001 sends nothing.  With the generative endpoint unreachable the
    handler makes its call, returns, and the request has no response;
    src/server.js, on the same request, responds 500. *)
Lemma C3_part_001_leaves_request_unanswered :
  length (llm_calls (trace (Part001.app llm_down summarize_single_todo_route buy_milk))) = 1%nat /\
  responses (trace (Part001.app llm_down summarize_single_todo_route buy_milk)) = [] /\
  result (Part001.app llm_down summarize_single_todo_route buy_milk) = Normal tt /\
  responses (trace (ServerJs.app llm_down summarize_single_todo_route buy_milk)) =
    [(500, JObj [("error",
                  JStr "Error generating summary for single todo: connect ECONNREFUSED")])].
Proof. repeat split; reflexivity. Qed.

(** C4 on the code: when the generative endpoint answers 200 with [{}],
    src/server.js responds with the fallback summary and part_001 with the
    empty string; when the answer has a part without [text], src/server.js
    responds 200 with no summary at all. *)
Lemma C4_fallback_summary_missing :
  responses (trace (ServerJs.app empty_answer summarize_single_todo_route buy_milk)) =
    [(200, JObj [("message", JStr "Single todo summary generated successfully.");
                 ("summary", JStr "Could not generate a meaningful summary for this todo.")])] /\
  responses (trace (Part001.app empty_answer summarize_single_todo_route buy_milk)) =
    [(200, JObj [("message", JStr "Single todo summary generated successfully.");
                 ("summary", JStr EmptyString)])] /\
  responses (trace (ServerJs.app part_without_text summarize_single_todo_route buy_milk)) =
    [(200, JObj [("message", JStr "Single todo summary generated successfully.")])].
Proof. repeat split; reflexivity. Qed.

(** C5, as the specification words it, fails on part_000: with no
    webhook URL in the environment, a request with a text and no summary
    whose summarization call fails gets no POST to the webhook. *)
Lemma C5_counterexample_unconfigured_webhook :
  opt_get (body buy_milk) "summary" = JUndefined /\
  (exists p,
     llm_calls (trace (Part000.app llm_down send_single_todo_to_slack_route buy_milk))
       = [JStr p] /\
     gemini_sdk llm_down p = Refused network_down) /\
  webhook_posts (trace (Part000.app llm_down send_single_todo_to_slack_route buy_milk)) = [] /\
  ~ posts_fallback_for "Buy milk"
      (Part000.app llm_down send_single_todo_to_slack_route buy_milk).
Proof.
  split; [ reflexivity | ].
  split; [ eexists; split; reflexivity | ].
  split; [ reflexivity | ].
  intros (url & payload & s & Hin & _). exact Hin.
Qed.

(** C5, amended.  In part_000 (the one file whose Slack handler
    summarizes), for every request whose body can be read and printed,
    whose text is a non-empty string and whose summary is omitted, if the
    webhook URL is configured and the summarization calls the run makes
    fail, the handler performs exactly one webhook POST, and the [text] of
    the posted message contains the fallback
    [Could not generate summary for: "<text>".], the text verbatim. *)
Theorem C5_fallback_summary_is_posted (w : world) (req : request) (text : string) :
  printable_body (body req) = true ->
  opt_get (body req) "text" = JStr text ->
  text <> EmptyString ->
  truthy (opt_get (body req) "summary") = false ->
  webhook_configured (Part000.SLACK_WEBHOOK_URL w) = true ->
  (forall p,
     In (LlmCall (JStr p))
        (trace (Part000.app w send_single_todo_to_slack_route req)) ->
     exists e, gemini_sdk w p = Refused e) ->
  length (webhook_posts (trace (Part000.app w send_single_todo_to_slack_route req))) = 1%nat /\
  posts_fallback_for text (Part000.app w send_single_todo_to_slack_route req).
Proof.
  intros Hbody Htext Hne Hsum Hurl Hfail.
  destruct (printable_body_parts _ Hbody) as [Hn Hp].
  assert (truthy (opt_get (body req) "text") = true) as Htruthy.
  { rewrite Htext. simpl. destruct text; [ contradiction | reflexivity ]. }
  cbn [Part000.app] in *.
  set (url := Part000.SLACK_WEBHOOK_URL w) in *.
  destruct (part_000_send_run url w (userId_middleware req) Hbody Htruthy)
    as (calls & fs & msg & Hfs & Hmsg & _ & _ & Hrun).
  cbn [body userId_middleware with_userId] in Hfs, Hmsg.
  assert (exists p, Part000.slack_prompt (opt_get (body req) "text")
                      (opt_get (body req) "dueDate") (opt_get (body req) "dueTime")
                    = Normal p) as [p Hprompt].
  { unfold Part000.slack_prompt. reads_and_prints (body req) Hn Hp. eauto. }
  assert (Part000.fallback_summary (opt_get (body req) "text")
          = Normal (JStr ("Could not generate summary for: " +:+ dq +:+ text +:+ dq +:+ ".")))
    as Hfb by (rewrite Htext; reflexivity).
  rewrite (part_000_final_summary_run w _ _ _ _ p _ Hsum Hprompt Hfb) in Hfs.
  injection Hfs as <- <-.
  assert (In (LlmCall (JStr p))
             (trace (Part000.send_single_todo_to_slack url w (userId_middleware req))))
    as Hcall by (rewrite Hrun; left; reflexivity).
  destruct (Hfail p Hcall) as [e He].
  rewrite He in Hmsg. clear Hfail Hcall.
  assert (webhook_posts
            (trace (Part000.send_single_todo_to_slack url w (userId_middleware req)))
          = [(url, msg)]) as Hposts.
  { rewrite Hrun, (part_000_configured url w msg Hurl). cbn [trace app webhook_posts].
    destruct (slack_fetch w url msg) as [st reply | m];
      [ destruct (is_2xx st) | ]; reflexivity. }
  split; [ rewrite Hposts; reflexivity | ].
  exists url, msg. rewrite Hposts.
  revert Hmsg. unfold Part000.build_slackMessage. rewrite Htext.
  cbn [to_string mbind completion_bind].
  intros Hmsg.
  repeat match type of Hmsg with
    | context [to_string ?v] => destruct (to_string v)
    | _ => progress cbn [mbind completion_bind] in Hmsg
    end;
    try discriminate; injection Hmsg as <-.
  eexists. split; [ left; reflexivity | ]. split; [ reflexivity | ].
  repeat first [ apply occurs_in_self | apply occurs_in_app_l ].
Qed.

(** The generative endpoint is down and the webhook is set. *)
Lemma C5_witness_llm_down :
  length (webhook_posts
            (trace (Part000.app llm_down_webhook_set send_single_todo_to_slack_route buy_milk)))
  = 1%nat /\
  posts_fallback_for "Buy milk"
    (Part000.app llm_down_webhook_set send_single_todo_to_slack_route buy_milk).
Proof.
  apply (C5_fallback_summary_is_posted llm_down_webhook_set buy_milk "Buy milk").
  - reflexivity.
  - reflexivity.
  - discriminate.
  - reflexivity.
  - vm_compute. reflexivity.
  - intros p _. exists network_down. reflexivity.
Defined.

(** C6, as the specification words it, fails on part_000: with no
    webhook URL in the environment, a request with a text and no summary
    is answered 500 after a call to the generative endpoint has been made,
    and a request without text is answered 400. *)
Lemma C6_counterexample_llm_called_first :
  webhook_configured (Part000.SLACK_WEBHOOK_URL llm_down) = false /\
  length (outbound_calls
            (trace (Part000.app llm_down send_single_todo_to_slack_route buy_milk)))
  = 1%nat /\
  ~ unconfigured_as_specified
      (Part000.app llm_down send_single_todo_to_slack_route buy_milk) /\
  ~ unconfigured_as_specified
      (Part000.app llm_down send_single_todo_to_slack_route empty_body).
Proof.
  split; [ reflexivity | ]. split; [ reflexivity | ]. split.
  - intros [Hcalls _]. vm_compute in Hcalls. discriminate.
  - intros [_ (b & v & Hresp & _)]. vm_compute in Hresp. discriminate.
Qed.

(** C6, amended.  If the webhook URL is unset, empty or the placeholder,
    no file performs a webhook POST, whatever the printable request.  In
    src/server.js and part_001 the handler then performs no outbound call
    at all and responds 500 with the error envelope.  In part_000 the
    handler returns after one response: 400 when the text is missing, and
    otherwise 500 with the error envelope, sent after the summarization
    call when the summary is omitted. *)
Theorem C6_unconfigured_webhook_gets_no_post (url : jsval) (w : world)
    (req : request) :
  webhook_configured url = false ->
  printable_body (body req) = true ->
  ServerJs.send_single_todo_to_slack url w req =
    Run [Respond 500
           (JObj [("error",
                   JStr "Internal server error: Slack Webhook URL is not configured in the backend.")])]
        (Normal tt) /\
  Part001.send_single_todo_to_slack url w req =
    Run [Respond 500
           (JObj [("error",
                   JStr "Internal server error: Slack Webhook URL is not configured in the backend.")])]
        (Normal tt) /\
  webhook_posts (trace (Part000.send_single_todo_to_slack url w req)) = [] /\
  result (Part000.send_single_todo_to_slack url w req) = Normal tt /\
  responses (trace (Part000.send_single_todo_to_slack url w req)) =
    [if truthy (opt_get (body req) "text")
     then (500, JObj [("error", JStr "Internal server error: Could not send message to Slack.")])
     else (400, JObj [("error", JStr "Todo text is required.")])].
Proof.
  intros Hurl Hbody.
  assert (ServerJs.send_single_todo_to_slack url w req =
          Run [Respond 500
                 (JObj [("error",
                         JStr "Internal server error: Slack Webhook URL is not configured in the backend.")])]
              (Normal tt)) as Hserver.
  { unfold ServerJs.send_single_todo_to_slack.
    destruct (server_js_slack_text_defined _ Hbody) as [msg ->].
    rewrite bind_lift. apply server_js_unconfigured, Hurl. }
  split; [ exact Hserver | ]. split; [ exact Hserver | ].
  destruct (truthy (opt_get (body req) "text")) eqn:Htext.
  - destruct (part_000_send_run url w req Hbody Htext)
      as (calls & fs & msg & _ & _ & Hposts & Hresp & ->).
    rewrite (part_000_unconfigured url w msg Hurl). cbn [trace result].
    rewrite webhook_posts_app, responses_app, Hposts, Hresp. auto.
  - destruct (printable_body_parts _ Hbody) as [Hn _].
    unfold Part000.send_single_todo_to_slack.
    rewrite !(get_defined (body req) _ Hn), !bind_lift, Htext. auto.
Qed.

(** No URL at all. *)
Lemma C6_witness_no_url :
  webhook_posts (trace (Part000.send_single_todo_to_slack JUndefined llm_down buy_milk)) = [] /\
  responses (trace (Part000.send_single_todo_to_slack JUndefined llm_down buy_milk)) =
    [(500, JObj [("error", JStr "Internal server error: Could not send message to Slack.")])] /\
  trace (ServerJs.send_single_todo_to_slack JUndefined llm_down buy_milk) =
    [Respond 500
       (JObj [("error",
               JStr "Internal server error: Slack Webhook URL is not configured in the backend.")])].
Proof.
  destruct (C6_unconfigured_webhook_gets_no_post JUndefined llm_down buy_milk)
    as (Hserver & _ & Hposts & _ & Hresp); [ reflexivity | reflexivity | ].
  split; [ exact Hposts | ]. split; [ exact Hresp | ].
  rewrite Hserver. reflexivity.
Defined.

(** C7 on the code: when the webhook answers 404 with the text
    [no_service], src/server.js forwards the status, but its error string
    is axios's own message and holds nothing of the reply; part_000, on the
    same request, reports the reply. *)
Lemma C7_server_js_drops_webhook_reply :
  responses (trace (ServerJs.app webhook_404 send_single_todo_to_slack_route buy_milk)) =
    [(404, JObj [("error",
                  JStr "Internal server error: Request failed with status code 404")])] /\
  responses (trace (Part001.app webhook_404 send_single_todo_to_slack_route buy_milk)) =
    [(404, JObj [("error",
                  JStr "Internal server error: Request failed with status code 404")])] /\
  responses (trace (Part000.app webhook_404 send_single_todo_to_slack_route buy_milk)) =
    [(404, JObj [("error", JStr "Failed to send message to Slack: no_service")])].
Proof. repeat split; reflexivity. Qed.

(** C8, as the specification words it, fails on a header that is present
    and empty: the middleware resolves the caller id to "anonymous", not to
    the header's (empty) value. *)
Lemma C8_counterexample_empty_header :
  headers (buy_milk_as EmptyString) !! "x-user-id" = Some EmptyString /\
  userId (userId_middleware (buy_milk_as EmptyString)) = JStr "anonymous" /\
  ~ caller_id_as_specified (buy_milk_as EmptyString).
Proof.
  split; [ reflexivity | split; [ reflexivity | ] ].
  unfold caller_id_as_specified.
  replace (headers (buy_milk_as EmptyString) !! "x-user-id")
    with (Some EmptyString) by reflexivity.
  discriminate.
Qed.

(** C8, amended.  The middleware shared by the three files resolves the
    caller id to the value of the x-user-id header when the header is
    present and not empty, and to "anonymous" otherwise. *)
Theorem C8_caller_id_resolution (req : request) :
  userId (userId_middleware req) =
  match headers req !! "x-user-id" with
  | Some v => if String.eqb v EmptyString then JStr "anonymous" else JStr v
  | None => JStr "anonymous"
  end.
Proof.
  unfold userId_middleware, header, js_or; simpl.
  destruct (headers req !! "x-user-id") as [v | ]; simpl; [ | reflexivity ].
  destruct (String.eqb v EmptyString); reflexivity.
Qed.

(** C9.  Two requests with the same body, and the same headers apart
    from x-user-id, get the same run from each of the three applications on
    either route: the same outbound calls with the same payloads, the same
    response, the same completion.  No handler reads the caller id the
    middleware stored: whatever [req.userId] holds, the handler's run is the
    same.  The caller named in a message posted to the webhook is the
    printed [userId] property of the request body. *)
Theorem C9_caller_header_is_not_observable (w : world) (r : route)
    (req1 req2 : request) :
  body req1 = body req2 ->
  delete "x-user-id" (headers req1) = delete "x-user-id" (headers req2) ->
  (ServerJs.app w r req1 = ServerJs.app w r req2 /\
   Part000.app w r req1 = Part000.app w r req2 /\
   Part001.app w r req1 = Part001.app w r req2) /\
  (forall (v url : jsval),
     ServerJs.summarize_single_todo w (with_userId v req1)
       = ServerJs.summarize_single_todo w req1 /\
     ServerJs.send_single_todo_to_slack url w (with_userId v req1)
       = ServerJs.send_single_todo_to_slack url w req1 /\
     Part000.summarize_single_todo w (with_userId v req1)
       = Part000.summarize_single_todo w req1 /\
     Part000.send_single_todo_to_slack url w (with_userId v req1)
       = Part000.send_single_todo_to_slack url w req1 /\
     Part001.summarize_single_todo w (with_userId v req1)
       = Part001.summarize_single_todo w req1 /\
     Part001.send_single_todo_to_slack url w (with_userId v req1)
       = Part001.send_single_todo_to_slack url w req1) /\
  always (names_body_user "*New Todo Alert for User " (body req1)) (ServerJs.app w r req1) /\
  always (names_body_user "*New Todo Update from " (body req1)) (Part000.app w r req1) /\
  always (names_body_user "*New Todo Alert for User " (body req1)) (Part001.app w r req1).
Proof.
  intros Hbody Hheaders.
  assert (header (userId_middleware req1) "user-agent"
          = header (userId_middleware req2) "user-agent") as Hagent.
  { unfold header. cbn [headers userId_middleware with_userId].
    rewrite <- (lookup_delete_ne (headers req1) "x-user-id" "user-agent") by discriminate.
    rewrite Hheaders, lookup_delete_ne by discriminate. reflexivity. }
  split; [ | split ].
  - destruct r; cbn [ServerJs.app Part000.app Part001.app];
      unfold ServerJs.summarize_single_todo, Part000.summarize_single_todo,
        Part001.summarize_single_todo, Part001.send_single_todo_to_slack,
        ServerJs.send_single_todo_to_slack, Part000.send_single_todo_to_slack;
      cbn [body userId_middleware with_userId]; rewrite Hbody, ?Hagent; auto.
  - intros v url.
    unfold ServerJs.summarize_single_todo, Part000.summarize_single_todo,
      Part001.summarize_single_todo, Part001.send_single_todo_to_slack,
      ServerJs.send_single_todo_to_slack, Part000.send_single_todo_to_slack, header.
    cbn [body headers with_userId]. repeat apply conj; reflexivity.
  - destruct r; cbn [ServerJs.app Part000.app Part001.app]; repeat split.
    + apply server_js_summarize_always; intros; exact I.
    + apply part_000_summarize_always; intros; exact I.
    + apply part_001_summarize_always; intros; exact I.
    + apply (server_js_slack_names_user _ w (userId_middleware req1)).
    + apply (part_000_slack_names_user _ w (userId_middleware req1)).
    + apply (server_js_slack_names_user _ w (userId_middleware req1)).
Qed.

(** Two callers, the same todo. *)
Lemma C9_witness_alice_and_bob :
  ServerJs.app all_well send_single_todo_to_slack_route (buy_milk_as "alice")
  = ServerJs.app all_well send_single_todo_to_slack_route (buy_milk_as "bob") /\
  Part000.app all_well send_single_todo_to_slack_route (buy_milk_as "alice")
  = Part000.app all_well send_single_todo_to_slack_route (buy_milk_as "bob") /\
  Part001.app all_well send_single_todo_to_slack_route (buy_milk_as "alice")
  = Part001.app all_well send_single_todo_to_slack_route (buy_milk_as "bob").
Proof.
  destruct (C9_caller_header_is_not_observable all_well send_single_todo_to_slack_route
              (buy_milk_as "alice") (buy_milk_as "bob")) as [Hsame _];
    [ reflexivity | reflexivity | exact Hsame ].
Defined.



(** ** Further properties of single files *)

(** part_000 does what C2 asks: a request whose body has no truthy
    [text] gets the one response 400 [Todo text is required.], and no
    outbound call is made. *)
Theorem part_000_rejects_missing_text (url : jsval) (w : world) (req : request) :
  nullish (body req) = false ->
  truthy (opt_get (body req) "text") = false ->
  rejects_missing_text (Part000.send_single_todo_to_slack url w req) /\
  outbound_calls (trace (Part000.send_single_todo_to_slack url w req)) = [].
Proof.
  intros Hn Htext.
  assert (rejects_missing_text (Part000.send_single_todo_to_slack url w req)) as H.
  { unfold rejects_missing_text, Part000.send_single_todo_to_slack.
    rewrite !(get_defined (body req) _ Hn), !bind_lift, Htext. reflexivity. }
  split; [ exact H | ]. rewrite H. reflexivity.
Qed.

(** A request with an empty text, against part_000. *)
Lemma part_000_rejects_missing_text_witness :
  rejects_missing_text
    (Part000.send_single_todo_to_slack JUndefined all_well
       (request_of ∅ (JObj [("text", JStr EmptyString)]))) /\
  outbound_calls
    (trace (Part000.send_single_todo_to_slack JUndefined all_well
              (request_of ∅ (JObj [("text", JStr EmptyString)])))) = [].
Proof.
  apply (part_000_rejects_missing_text JUndefined all_well
           (request_of ∅ (JObj [("text", JStr EmptyString)]))); reflexivity.
Defined.



(** src/server.js does what C4 asks when the answer has no [candidates]:
    a 2xx answer whose data lacks a truthy [candidates] property gets the
    one response 200 with the static fallback summary. *)
Theorem server_js_falls_back_without_candidates (w : world) (req : request)
    (status : Z) (data : jsval) :
  printable_body (body req) = true ->
  (forall q, gemini_http w q = Answered status data) ->
  is_2xx status = true ->
  nullish data = false ->
  truthy (opt_get data "candidates") = false ->
  responses (trace (ServerJs.app w summarize_single_todo_route req)) =
    [(200, JObj [("message", JStr "Single todo summary generated successfully.");
                 ("summary", JStr "Could not generate a meaningful summary for this todo.")])].
Proof.
  intros Hbody Hanswer Hstatus Hdata Hcandidates.
  cbn [ServerJs.app]. unfold ServerJs.summarize_single_todo.
  cbn [body userId_middleware with_userId].
  destruct (server_js_prompt_defined _ Hbody) as [p ->].
  rewrite bind_lift. unfold ServerJs.summarize_try, axios_post, has_candidate_parts.
  rewrite Hanswer, Hstatus. cbn [mbind M_bind mret M_ret emit trace result snd].
  rewrite (get_defined data _ Hdata). cbn [mbind completion_bind].
  rewrite Hcandidates. reflexivity.
Qed.

(** The endpoint answers 200 with [{}]. *)
Lemma server_js_falls_back_without_candidates_witness :
  responses (trace (ServerJs.app empty_answer summarize_single_todo_route buy_milk)) =
    [(200, JObj [("message", JStr "Single todo summary generated successfully.");
                 ("summary", JStr "Could not generate a meaningful summary for this todo.")])].
Proof.
  apply (server_js_falls_back_without_candidates empty_answer buy_milk 200 (JObj []));
    reflexivity.
Defined.

(** In all three files either handler prints the body's properties in
    template literals outside its [try] block.  A request whose [dueDate]
    is an object with an own [toString] key makes the print throw: the
    handler makes no outbound call, sends no response, and the TypeError
    leaves it. *)
Theorem unprintable_field_escapes (r : route) :
  ServerJs.app all_well r unprintable_due_date = Run [] (Throw cannot_convert) /\
  Part000.app all_well r unprintable_due_date = Run [] (Throw cannot_convert) /\
  Part001.app all_well r unprintable_due_date = Run [] (Throw cannot_convert).
Proof. destruct r; repeat split; reflexivity. Qed.

(** ** Further properties of the handlers *)

Import Behaviour CaseFacts.

(** In each of the three files, on either route, a handler's effects
    come in one order: at most one request to the generative endpoint (none
    on the Slack route of src/server.js and part_001), then at most one POST
    to the webhook (none on the summarize route), then the response.  A
    handler that returns has sent exactly one response, as its last effect;
    a handler that throws has sent none.  Nothing is retried.  (The
    summarize handler of part_001 is the exception: it can return without a
    response.) *)
Theorem handlers_run_in_order (w : world) (req : request) :
  orderly 1 0 (ServerJs.app w summarize_single_todo_route req) /\
  orderly 0 1 (ServerJs.app w send_single_todo_to_slack_route req) /\
  orderly 1 0 (Part000.app w summarize_single_todo_route req) /\
  orderly 1 1 (Part000.app w send_single_todo_to_slack_route req) /\
  orderly 0 1 (Part001.app w send_single_todo_to_slack_route req).
Proof.
  cbn [ServerJs.app Part000.app Part001.app].
  split; [ apply server_js_summarize_orderly | ].
  split; [ apply server_js_slack_orderly | ].
  split; [ apply part_000_summarize_orderly | ].
  split; [ apply part_000_slack_orderly | ].
  apply (server_js_slack_orderly _ w (userId_middleware req)).
Qed.

(** In all three files the handlers print the body's [text], [dueDate]
    and [dueTime] in template literals that stand outside every [try]
    block that answers.  When one of the three holds a value that does not
    print (an object with an own [toString] key, or an array that holds
    one), the TypeError leaves the handler: no outbound call is made and no
    response is sent, on either route.  Only the text guard of part_000 comes
    first: without a truthy [text] its Slack handler answers 400. *)
Theorem unprintable_field_goes_unanswered (url : jsval) (w : world)
    (req : request) :
  nullish (body req) = false ->
  unprintable (body req) ["text"; "dueDate"; "dueTime"] ->
  ServerJs.summarize_single_todo w req = Run [] (Throw cannot_convert) /\
  Part000.summarize_single_todo w req = Run [] (Throw cannot_convert) /\
  Part001.summarize_single_todo w req = Run [] (Throw cannot_convert) /\
  ServerJs.send_single_todo_to_slack url w req = Run [] (Throw cannot_convert) /\
  Part001.send_single_todo_to_slack url w req = Run [] (Throw cannot_convert) /\
  Part000.send_single_todo_to_slack url w req =
    (if truthy (opt_get (body req) "text")
     then Run [] (Throw cannot_convert)
     else Run [Respond 400 (JObj [("error", JStr "Todo text is required.")])] (Normal tt)).
Proof.
  intros Hn Hfield.
  destruct (prompts_throw (body req) Hn Hfield) as (Hs & H0 & H1 & Hslack).
  unfold ServerJs.summarize_single_todo, Part000.summarize_single_todo,
    Part001.summarize_single_todo, Part001.send_single_todo_to_slack,
    ServerJs.send_single_todo_to_slack.
  rewrite Hs, H0, H1, Hslack, !bind_lift.
  repeat (split; [ reflexivity | ]).
  destruct (truthy (opt_get (body req) "text")) eqn:Htext.
  - apply part_000_slack_throws; assumption.
  - unfold Part000.send_single_todo_to_slack.
    rewrite !(get_defined (body req) _ Hn), !bind_lift, Htext. reflexivity.
Qed.

(** A due date that is an object with an own [toString] key. *)
Lemma unprintable_field_goes_unanswered_witness :
  ServerJs.summarize_single_todo all_well unprintable_due_date
    = Run [] (Throw cannot_convert) /\
  Part000.send_single_todo_to_slack JUndefined all_well unprintable_due_date
    = Run [] (Throw cannot_convert).
Proof.
  destruct (unprintable_field_goes_unanswered JUndefined all_well unprintable_due_date)
    as (Hs & _ & _ & _ & _ & Hp).
  - reflexivity.
  - exists "dueDate", cannot_convert. split; [ right; left; reflexivity | reflexivity ].
  - split; [ exact Hs | exact Hp ].
Defined.

(** part_001 leaves every failed summary unanswered.  When the
    generative endpoint does not answer 2xx (any other status, or no answer
    at all), the summarize handler of part_001 makes its one call, sends no
    response and returns; src/server.js and part_000 [catch] the same failure
    and answer (C1). *)
Theorem part_001_failure_goes_unanswered (w : world) (req : request) :
  printable_body (body req) = true ->
  (forall q, resolves (gemini_http w q) = false) ->
  exists q,
    Part001.app w summarize_single_todo_route req = Run [LlmCall q] (Normal tt).
Proof.
  intros Hbody Hdown. cbn [Part001.app].
  unfold Part001.summarize_single_todo. cbn [body userId_middleware with_userId].
  destruct (part_001_prompt_defined _ Hbody) as [p ->]. rewrite bind_lift.
  exists (ServerJs.llm_payload p).
  destruct (axios_summarize_try_cases w p (JStr EmptyString))
    as [(st & d & v & Hanswer & Hst & _) | (e & Hrun & _)].
  - specialize (Hdown (ServerJs.llm_payload p)). rewrite Hanswer in Hdown.
    cbn [resolves] in Hdown. congruence.
  - unfold Part001.summarize_try. cbv zeta. rewrite Hrun.
    rewrite (try_catch_throw _ _ e) by reflexivity. reflexivity.
Qed.

(** The endpoint cannot be reached. *)
Lemma part_001_failure_goes_unanswered_witness :
  exists q,
    Part001.app llm_down summarize_single_todo_route buy_milk
    = Run [LlmCall q] (Normal tt).
Proof.
  apply (part_001_failure_goes_unanswered llm_down buy_milk);
    [ reflexivity | intros q; reflexivity ].
Defined.







(** Which text becomes the summary in src/server.js and part_001.  When
    the generative endpoint answers 2xx with data whose [candidates] is a
    non-empty array, whose first candidate has a truthy [content], whose
    [parts] is a non-empty array, the summary of the 200 response is the
    [text] property of the first part of the first candidate, whatever it
    holds; the other candidates and parts are never read.  A first part
    without [text] gives a response without a [summary] key. *)
Theorem summary_is_first_part_of_first_candidate (w : world) (req : request)
    (status : Z) (data candidate content part : jsval)
    (candidates parts : list jsval) :
  printable_body (body req) = true ->
  (forall q, gemini_http w q = Answered status data) ->
  is_2xx status = true ->
  nullish data = false ->
  opt_get data "candidates" = JArr (candidate :: candidates) ->
  nullish candidate = false ->
  opt_get candidate "content" = content ->
  truthy content = true ->
  opt_get content "parts" = JArr (part :: parts) ->
  nullish part = false ->
  responses (trace (ServerJs.app w summarize_single_todo_route req)) =
    [(200, JObj (stringify_props
                   [("message", JStr "Single todo summary generated successfully.");
                    ("summary", opt_get part "text")]))] /\
  responses (trace (Part001.app w summarize_single_todo_route req)) =
    [(200, JObj (stringify_props
                   [("message", JStr "Single todo summary generated successfully.");
                    ("summary", opt_get part "text")]))].
Proof.
  intros Hbody Hanswer Hstatus Hdata Hcands Hcand Hcontent Htruthy Hparts Hpart.
  assert (nullish content = false) as Hn
    by (destruct content; try discriminate Htruthy; reflexivity).
  assert (has_candidate_parts w data = Normal true) as Hguard.
  { unfold has_candidate_parts.
    rewrite (get_defined data _ Hdata), Hcands. cbn [mbind completion_bind truthy negb get get0
      String.eqb Ascii.eqb Bool.eqb gt_zero length].
    rewrite (get_defined candidate _ Hcand), Hcontent. cbn [mbind completion_bind].
    rewrite Htruthy. cbn [negb].
    rewrite (get_defined content _ Hn), Hparts. reflexivity. }
  assert (first_candidate_text data = Normal (opt_get part "text")) as Htext.
  { unfold first_candidate_text.
    rewrite (get_defined data _ Hdata), Hcands. cbn [mbind completion_bind get0].
    rewrite (get_defined candidate _ Hcand), Hcontent. cbn [mbind completion_bind].
    rewrite (get_defined content _ Hn), Hparts. cbn [mbind completion_bind get0].
    apply get_defined, Hpart. }
  cbn [ServerJs.app Part001.app].
  unfold ServerJs.summarize_single_todo, Part001.summarize_single_todo.
  cbn [body userId_middleware with_userId].
  destruct (server_js_prompt_defined _ Hbody) as [p ->].
  destruct (part_001_prompt_defined _ Hbody) as [p' ->].
  rewrite !bind_lift.
  unfold ServerJs.summarize_try, Part001.summarize_try. cbv zeta.
  rewrite !axios_post_run, !Hanswer. cbn [resolves]. rewrite Hstatus.
  rewrite !(bind_normal _ _ (status, data)) by reflexivity. cbn [snd trace].
  rewrite Hguard, !bind_lift, Htext. split; reflexivity.
Qed.

(** Two candidates, two parts each. *)
Lemma summary_is_first_part_of_first_candidate_witness :
  responses
    (trace (ServerJs.app
              (world_of ∅
                 (Answered 200
                    (JObj [("candidates",
                            JArr [JObj [("content",
                                         JObj [("parts", JArr [JObj [("text", JStr "first")];
                                                               JObj [("text", JStr "second")]])])];
                                  JObj [("content",
                                         JObj [("parts", JArr [JObj [("text", JStr "other")]])])]])]))
                 (Generated "unused") 200 "ok")
              summarize_single_todo_route buy_milk)) =
    [(200, JObj [("message", JStr "Single todo summary generated successfully.");
                 ("summary", JStr "first")])].
Proof.
  refine (proj1 (summary_is_first_part_of_first_candidate _ buy_milk 200 _ _ _
                   (JObj [("text", JStr "first")]) _ _ _ _ _ _ _ _ _ _ _ _));
    try reflexivity; intros; reflexivity.
Defined.

(** Which summary part_000 posts.  For a printable request with a
    [text] and a configured webhook URL, the Slack handler POSTs exactly one
    message, built from one summary: the [summary] of the request when it is
    truthy, and then the generative model is not called; otherwise the text
    the model returns for the one prompt it is sent, or, when that call
    fails, the fallback built from [text]. *)
Theorem part_000_posts_one_summary (url : jsval) (w : world) (req : request) :
  printable_body (body req) = true ->
  truthy (opt_get (body req) "text") = true ->
  webhook_configured url = true ->
  exists summary payload,
    Part000.build_slackMessage (opt_get (body req) "userId")
      (js_or (header req "user-agent") (JStr "Unknown User-Agent"))
      (opt_get (body req) "text") (opt_get (body req) "dueDate")
      (opt_get (body req) "dueTime") summary = Normal payload /\
    webhook_posts (trace (Part000.send_single_todo_to_slack url w req))
      = [(url, payload)] /\
    if truthy (opt_get (body req) "summary")
    then summary = opt_get (body req) "summary" /\
         llm_calls (trace (Part000.send_single_todo_to_slack url w req)) = []
    else exists p,
           Part000.slack_prompt (opt_get (body req) "text")
             (opt_get (body req) "dueDate") (opt_get (body req) "dueTime") = Normal p /\
           llm_calls (trace (Part000.send_single_todo_to_slack url w req)) = [JStr p] /\
           match gemini_sdk w p with
           | Generated s => summary = JStr s
           | Refused _ =>
               Part000.fallback_summary (opt_get (body req) "text") = Normal summary
           end.
Proof.
  intros Hbody Htext Hurl.
  destruct (part_000_send_run url w req Hbody Htext)
    as (calls & fs & msg & Hfs & Hmsg & Hposts & _ & ->).
  destruct (printable_body_parts _ Hbody) as [_ Hp].
  exists fs, msg. split; [ exact Hmsg | ].
  destruct (part_000_configured_calls url w msg Hurl) as [Hpost Hllm].
  cbn [trace]. rewrite webhook_posts_app, llm_calls_app, Hposts, Hpost, Hllm, app_nil_r.
  split; [ reflexivity | ].
  destruct (truthy (opt_get (body req) "summary")) eqn:Hsum.
  - unfold Part000.final_summary in Hfs. rewrite Hsum in Hfs.
    injection Hfs as <- <-. split; reflexivity.
  - destruct (part_000_slack_prompt_defined (opt_get (body req) "text")
                (opt_get (body req) "dueDate") (opt_get (body req) "dueTime"))
      as [p Hprompt]; try (apply Hp; in_fields).
    destruct (part_000_fallback_defined (opt_get (body req) "text"))
      as [fb Hfb]; try (apply Hp; in_fields).
    rewrite (part_000_final_summary_run w _ _ _ _ p fb Hsum Hprompt Hfb) in Hfs.
    injection Hfs as <- <-.
    exists p. split; [ exact Hprompt | split; [ reflexivity | ] ].
    destruct (gemini_sdk w p); [ reflexivity | exact Hfb ].
Qed.

(** The caller sends the summary along, and the model is down. *)
Lemma part_000_posts_one_summary_witness :
  llm_calls
    (trace (Part000.send_single_todo_to_slack (JStr "https://hooks.example/T/B/X")
              llm_down
              (request_of ∅ (JObj [("text", JStr "Buy milk");
                                   ("summary", JStr "Two litres.")])))) = [].
Proof.
  destruct (part_000_posts_one_summary (JStr "https://hooks.example/T/B/X") llm_down
              (request_of ∅ (JObj [("text", JStr "Buy milk");
                                   ("summary", JStr "Two litres.")])))
    as (summary & payload & _ & _ & Hsummary);
    [ reflexivity | reflexivity | reflexivity | exact (proj2 Hsummary) ].
Defined.

(** What the generative endpoint is told depends on four properties of
    the body only.  Two requests whose bodies agree on [text], [dueDate],
    [dueTime] and [summary] cause the same requests to the generative
    endpoint, in each of the three files and on either route, whatever their
    headers and whatever else their bodies hold: the caller's [userId], the
    x-user-id and user-agent headers never reach the model. *)
Theorem llm_request_ignores_identity (w : world) (r : route)
    (req1 req2 : request) :
  same_prompt_fields (body req1) (body req2) ->
  llm_calls (trace (ServerJs.app w r req1)) = llm_calls (trace (ServerJs.app w r req2)) /\
  llm_calls (trace (Part000.app w r req1)) = llm_calls (trace (Part000.app w r req2)) /\
  llm_calls (trace (Part001.app w r req1)) = llm_calls (trace (Part001.app w r req2)).
Proof.
  intros Hsame. destruct r; cbn [ServerJs.app Part000.app Part001.app].
  - rewrite !server_js_summarize_llm_calls, !part_000_summarize_llm_calls,
      !part_001_summarize_llm_calls. cbn [body userId_middleware with_userId].
    destruct (same_prompts _ _ Hsame) as [[H1 H2] | (_ & _ & -> & -> & ->)];
      [ | auto ].
    destruct (nullish_prompts _ H1) as ((e1 & ->) & (e2 & ->) & (e3 & ->)).
    destruct (nullish_prompts _ H2) as ((e4 & ->) & (e5 & ->) & (e6 & ->)).
    auto.
  - unfold Part001.send_single_todo_to_slack.
    rewrite !(orderly_no_llm 1 _ (server_js_slack_orderly _ w _)).
    rewrite !part_000_slack_llm_calls. cbn [body userId_middleware with_userId].
    destruct Hsame as [-> Hfields].
    rewrite !(Hfields "text"), !(Hfields "dueDate"), !(Hfields "dueTime"),
      !(Hfields "summary") by (unfold fields_prompted; in_fields).
    auto.
Qed.

(** The same todo from two callers with different clients. *)
Lemma llm_request_ignores_identity_witness :
  llm_calls
    (trace (Part000.app all_well send_single_todo_to_slack_route
              (request_of {["x-user-id" := "alice"]}
                 (JObj [("text", JStr "Buy milk"); ("userId", JStr "u1")])))) =
  llm_calls
    (trace (Part000.app all_well send_single_todo_to_slack_route
              (request_of {["user-agent" := "curl/8"]}
                 (JObj [("userId", JStr "u2"); ("text", JStr "Buy milk")])))).
Proof.
  destruct (llm_request_ignores_identity all_well send_single_todo_to_slack_route
              (request_of {["x-user-id" := "alice"]}
                 (JObj [("text", JStr "Buy milk"); ("userId", JStr "u1")]))
              (request_of {["user-agent" := "curl/8"]}
                 (JObj [("userId", JStr "u2"); ("text", JStr "Buy milk")])))
    as (_ & H & _); [ | exact H ].
  split; [ reflexivity | ].
  intros k [<- | [<- | [<- | [<- | []]]]]; reflexivity.
Defined.

(** Where each file sends the message.  For a printable request,
    src/server.js always POSTs once, to the URL committed in the file: the
    environment is not read and the guard on the URL never fires.  part_001
    POSTs to SLACK_WEBHOOK_URL of the environment, and to the URL committed
    in the file when the variable is unset or empty; only the placeholder
    value stops it.  part_000 (given a [text]) POSTs to the variable's value
    and does not POST at all when it is unset, empty or the placeholder. *)
Theorem webhook_url_resolution (w : world) (req : request) :
  printable_body (body req) = true ->
  truthy (opt_get (body req) "text") = true ->
  posts_to (Some (JStr "https://hooks.slack.com/services/..."))
           (ServerJs.app w send_single_todo_to_slack_route req) /\
  posts_to (match env w !! "SLACK_WEBHOOK_URL" with
            | Some s =>
                if String.eqb s EmptyString
                then Some (JStr "https://hooks.slack.com/services/...")
                else if String.eqb s "YOUR_SLACK_WEBHOOK_URL_HERE" then None
                     else Some (JStr s)
            | None => Some (JStr "https://hooks.slack.com/services/...")
            end)
           (Part001.app w send_single_todo_to_slack_route req) /\
  posts_to (match env w !! "SLACK_WEBHOOK_URL" with
            | Some s =>
                if String.eqb s EmptyString || String.eqb s "YOUR_SLACK_WEBHOOK_URL_HERE"
                then None else Some (JStr s)
            | None => None
            end)
           (Part000.app w send_single_todo_to_slack_route req).
Proof.
  intros Hbody Htext. cbn [ServerJs.app Part000.app Part001.app].
  split; [ exact (server_js_posts_to ServerJs.SLACK_WEBHOOK_URL w (userId_middleware req) Hbody) | ].
  unfold Part001.send_single_todo_to_slack.
  pose proof (fun url => server_js_posts_to url w (userId_middleware req) Hbody) as H001.
  pose proof (fun url => part_000_posts_to url w (userId_middleware req) Hbody Htext)
    as H000.
  unfold Part001.SLACK_WEBHOOK_URL, Part000.SLACK_WEBHOOK_URL, process_env, js_or.
  destruct (env w !! "SLACK_WEBHOOK_URL") as [s | ];
    [ | split; [ exact (H001 (JStr "https://hooks.slack.com/services/..."))
               | exact (H000 JUndefined) ] ].
  specialize (H000 (JStr s)). unfold webhook_configured in H000.
  cbn [truthy strict_eq_str] in *.
  destruct (String.eqb s EmptyString) eqn:Hempty; cbn [negb andb orb] in *.
  - split; [ exact (H001 (JStr "https://hooks.slack.com/services/...")) | exact H000 ].
  - specialize (H001 (JStr s)). unfold webhook_configured in H001.
    cbn [truthy strict_eq_str] in H001. rewrite Hempty in H001.
    destruct (String.eqb s "YOUR_SLACK_WEBHOOK_URL_HERE");
      (split; [ exact H001 | exact H000 ]).
Qed.

(** No SLACK_WEBHOOK_URL in the environment. *)
Lemma webhook_url_resolution_witness :
  posts_to (Some (JStr "https://hooks.slack.com/services/..."))
           (Part001.app llm_down send_single_todo_to_slack_route buy_milk) /\
  posts_to None (Part000.app llm_down send_single_todo_to_slack_route buy_milk).
Proof.
  destruct (webhook_url_resolution llm_down buy_milk) as (_ & H001 & H000);
    [ reflexivity | reflexivity | ].
  split; [ exact H001 | exact H000 ].
Defined.

(** What the summarize route tells the caller of a failure.  In
    src/server.js, when the generative endpoint answers with a status outside
    2xx, the response is always 500 (the endpoint's status is not forwarded,
    unlike on the Slack route) and its error is the fixed prefix followed by
    [error.message] of the endpoint's reply when the reply has a truthy one,
    and by axios's [Request failed with status code N] otherwise.  In
    part_000, an SDK error without a response is reported by its message. *)
Theorem summarize_failure_detail (w : world) (req : request) (status : Z)
    (data : jsval) (detail : string) (e : js_error) :
  printable_body (body req) = true ->
  (forall q, gemini_http w q = Answered status data) ->
  is_2xx status = false ->
  to_string (js_or (opt_get (opt_get data "error") "message")
                   (JStr ("Request failed with status code " +:+ show_Z status)))
    = Normal detail ->
  (forall p, gemini_sdk w p = Refused e) ->
  response e = None ->
  responses (trace (ServerJs.app w summarize_single_todo_route req)) =
    [(500, JObj [("error",
                  JStr ("Error generating summary for single todo: " +:+ detail))])] /\
  responses (trace (Part000.app w summarize_single_todo_route req)) =
    [(500, JObj [("error",
                  JStr ("Error generating summary for single todo: " +:+ message e))])].
Proof.
  intros Hbody Hanswer Hstatus Hdetail Hsdk He.
  cbn [ServerJs.app Part000.app].
  unfold ServerJs.summarize_single_todo, Part000.summarize_single_todo.
  cbn [body userId_middleware with_userId].
  destruct (server_js_prompt_defined _ Hbody) as [p ->].
  destruct (part_000_prompt_defined _ Hbody) as [p' ->].
  rewrite !bind_lift. split.
  - unfold ServerJs.summarize_try. cbv zeta.
    rewrite axios_post_run, Hanswer. cbn [resolves]. rewrite Hstatus.
    rewrite (bind_throw _ _ (rejection (Answered status data))) by reflexivity.
    rewrite (try_catch_throw _ _ (rejection (Answered status data))) by reflexivity.
    rewrite summarize_catch_run.
    unfold ServerJs.llm_error_detail, response_data, rejection. cbn [response message].
    rewrite Hdetail. reflexivity.
  - unfold Part000.summarize_try. rewrite generateContent_run, Hsdk.
    rewrite (bind_throw _ _ e) by reflexivity.
    rewrite (try_catch_throw _ _ e) by reflexivity.
    rewrite part_000_summarize_catch_run, summarize_catch_run.
    unfold ServerJs.llm_error_detail, response_data. rewrite He. reflexivity.
Qed.

(** The endpoint answers 429 and says why; the SDK cannot connect. *)
Lemma summarize_failure_detail_witness :
  responses
    (trace (ServerJs.app
              (world_of ∅
                 (Answered 429 (JObj [("error", JObj [("message", JStr "Quota exceeded")])]))
                 (Refused network_down) 200 "ok")
              summarize_single_todo_route buy_milk)) =
    [(500, JObj [("error",
                  JStr "Error generating summary for single todo: Quota exceeded")])] /\
  responses
    (trace (Part000.app
              (world_of ∅
                 (Answered 429 (JObj [("error", JObj [("message", JStr "Quota exceeded")])]))
                 (Refused network_down) 200 "ok")
              summarize_single_todo_route buy_milk)) =
    [(500, JObj [("error",
                  JStr "Error generating summary for single todo: connect ECONNREFUSED")])].
Proof.
  apply (summarize_failure_detail
           (world_of ∅
              (Answered 429 (JObj [("error", JObj [("message", JStr "Quota exceeded")])]))
              (Refused network_down) 200 "ok")
           buy_milk 429
           (JObj [("error", JObj [("message", JStr "Quota exceeded")])])
           "Quota exceeded" network_down); try reflexivity; intros; reflexivity.
Defined.

(** The Slack route answers every printable request, once.  In part_000
    whatever the webhook and the model do, and in src/server.js and part_001
    as long as the bodies of the webhook's replies print, the handler
    returns and has sent exactly one response: no failure of a provider
    leaves the caller without an answer.  (The summarize route of part_001
    does not have this property.) *)
Theorem slack_route_always_answers (url : jsval) (w : world) (req : request) :
  printable_body (body req) = true ->
  (forall u m st d, slack_http w u m = Answered st d -> plain d = true) ->
  (result (ServerJs.send_single_todo_to_slack url w req) = Normal tt /\
   exists status b,
     responses (trace (ServerJs.send_single_todo_to_slack url w req)) = [(status, b)]) /\
  (result (Part001.send_single_todo_to_slack url w req) = Normal tt /\
   exists status b,
     responses (trace (Part001.send_single_todo_to_slack url w req)) = [(status, b)]) /\
  (result (Part000.send_single_todo_to_slack url w req) = Normal tt /\
   exists status b,
     responses (trace (Part000.send_single_todo_to_slack url w req)) = [(status, b)]).
Proof.
  intros Hbody Hplain.
  pose proof (server_js_slack_returns url w req Hbody Hplain) as Hserver.
  pose proof (part_000_slack_returns url w req Hbody) as H000.
  pose proof (orderly_responses _ _ _ (server_js_slack_orderly url w req)) as Rserver.
  pose proof (orderly_responses _ _ _ (part_000_slack_orderly url w req)) as R000.
  rewrite Hserver in Rserver. rewrite H000 in R000.
  unfold Part001.send_single_todo_to_slack. auto.
Qed.

(** The webhook answers 404. *)
Lemma slack_route_always_answers_witness :
  result (Part000.send_single_todo_to_slack (JStr "https://hooks.example/T/B/X")
            webhook_404 buy_milk) = Normal tt /\
  exists status b,
    responses
      (trace (Part000.send_single_todo_to_slack (JStr "https://hooks.example/T/B/X")
                webhook_404 buy_milk)) = [(status, b)].
Proof.
  destruct (slack_route_always_answers (JStr "https://hooks.example/T/B/X")
              webhook_404 buy_milk) as (_ & _ & H);
    [ reflexivity | intros u m st d [= <- <-]; reflexivity | exact H ].
Defined.

(** ** The origin check *)

(** The origin check of part_000.  A request reaches the application
    exactly when it has no Origin header, or an empty one, or one that is,
    character for character, one of the two listed origins; any other origin
    (another scheme, host or port, a trailing slash, different case) is
    refused with the CORS error and no handler runs. *)
Theorem cors_admits_listed_origins_only (w : world) (r : route) (req : request) :
  (Ingress.serve w r req = Ingress.Handled (Part000.app w r req) /\
   Ingress.admitted req) \/
  (Ingress.serve w r req = Ingress.Blocked (new_Error Ingress.cors_message) /\
   ~ Ingress.admitted req).
Proof.
  unfold Ingress.serve, Ingress.admitted, header.
  destruct (headers req !! "origin") as [o | ]; [ | left; auto ].
  destruct (origin_admits (JStr o)) as [[-> Hin] | (-> & Ht & Hout)].
  - left. split; [ reflexivity | ].
    destruct Hin as [Hempty | (s & [= <-] & Hin)]; [ left | right; exact Hin ].
    cbn [truthy] in Hempty. destruct (String.eqb_spec o EmptyString); [ assumption | discriminate ].
  - right. split; [ reflexivity | ].
    intros [-> | Hin]; [ discriminate Ht | ].
    apply Hout. exists o. auto.
Qed.

(** ** Start-up *)

